(** * FDA drug-approval MCP server: a shallow embedding of [fda_mcp_server.py]

    The server is glue over one HTTP API: each handler builds a query,
    performs a GET, projects the JSON answer and serialises it.  The
    embedding keeps that shape:

    - Python values that travel as JSON are the inductive [json];
    - Python exceptions are the inductive [exn], and code that can raise
      lives in the error monad [res] (pure code) or in [M] (code that also
      talks to the upstream API or to the logger);
    - the upstream API is an oracle [upstream] consulted by [http_get]; every
      request issued is appended to the [sent] trace of the world, every
      logger call to its [logged] trace.

    Conventions: a [string] is a Python [str] whose characters are code
    points below 256; JSON numbers are integers (floats are outside the
    model). *)

From Stdlib Require Import ZArith List String Ascii Bool Lia DecimalString.
Import ListNotations.

Local Open Scope string_scope.
Local Open Scope Z_scope.

Set Implicit Arguments.
Set Warnings "-register-all".

(** ** Python [str] operations *)

Module PyStr.

(** The double quote and the line feed, built from their codes. *)
Definition dq : string := String "034"%char EmptyString.
Definition nl : string := String "010"%char EmptyString.

(** [str.isspace] on one character, for code points below 256:
    TAB, LF, VT, FF, CR, FS, GS, RS, US, space, NEL and NBSP. *)
Definition is_space (c : ascii) : bool :=
  let n := nat_of_ascii c in
  ((9 <=? n) && (n <=? 13) || (28 <=? n) && (n <=? 32)
   || (n =? 133) || (n =? 160))%nat.

(** [str.lstrip()], [str.rstrip()], [str.strip()]. *)
Fixpoint lstrip (s : string) : string :=
  match s with
  | EmptyString => EmptyString
  | String c s' => if is_space c then lstrip s' else s
  end.

Fixpoint rstrip (s : string) : string :=
  match s with
  | EmptyString => EmptyString
  | String c s' =>
      match rstrip s' with
      | EmptyString => if is_space c then EmptyString else String c EmptyString
      | r => String c r
      end
  end.

Definition strip (s : string) : string := rstrip (lstrip s).

(** [sep.join(parts)]. *)
Fixpoint join (sep : string) (parts : list string) : string :=
  match parts with
  | [] => EmptyString
  | [p] => p
  | p :: rest => p ++ sep ++ join sep rest
  end.

(** [segments sep skip s] scans [s] from the left; [skip] counts the
    characters of a separator occurrence that are still to be passed
    over.  Occurrences are found left to right and do not overlap, as in
    CPython. *)
Fixpoint segments (sep : string) (skip : nat) (s : string) : list string :=
  match s with
  | EmptyString => [EmptyString]
  | String c s' =>
      match skip with
      | S k => segments sep k s'
      | O =>
          if prefix sep s
          then EmptyString :: segments sep (String.length sep - 1) s'
          else match segments sep 0 s' with
               | seg :: rest => String c seg :: rest
               | [] => [String c EmptyString]
               end
      end
  end.

(** [s.split(sep)] for a non-empty [sep] (Python raises [ValueError] on
    an empty separator; the server only splits on a comma). *)
Definition split (sep s : string) : list string := segments sep 0 s.

Fixpoint replace_from (old new : string) (skip : nat) (s : string) : string :=
  match s with
  | EmptyString => EmptyString
  | String c s' =>
      match skip with
      | S k => replace_from old new k s'
      | O =>
          if prefix old s
          then new ++ replace_from old new (String.length old - 1) s'
          else String c (replace_from old new 0 s')
      end
  end.

(** [s.replace(old, new)] for a non-empty [old]. *)
Definition replace (old new s : string) : string := replace_from old new 0 s.

(** [needle in hay]. *)
Definition Contains (needle hay : string) : Prop :=
  exists pre suf, hay = pre ++ needle ++ suf.

(** Vocabulary for stating what [split] and [strip] return. *)
Fixpoint has_char (c : ascii) (s : string) : bool :=
  match s with
  | EmptyString => false
  | String a s' => Ascii.eqb a c || has_char c s'
  end.

Fixpoint count_char (c : ascii) (s : string) : nat :=
  match s with
  | EmptyString => O
  | String a s' => ((if Ascii.eqb a c then 1 else 0) + count_char c s')%nat
  end.

Fixpoint all_space (s : string) : bool :=
  match s with
  | EmptyString => true
  | String a s' => is_space a && all_space s'
  end.

Definition starts_with_space (s : string) : bool :=
  match s with
  | EmptyString => false
  | String a _ => is_space a
  end.

Fixpoint ends_with_space (s : string) : bool :=
  match s with
  | EmptyString => false
  | String a EmptyString => is_space a
  | String _ s' => ends_with_space s'
  end.

(** [t] is [seg] without the white space at its two ends. *)
Definition Trimmed (seg t : string) : Prop :=
  exists l r,
    seg = l ++ t ++ r
    /\ all_space l = true /\ all_space r = true
    /\ starts_with_space t = false /\ ends_with_space t = false.

(** [str(n)] for an [int]. *)
Definition of_Z (n : Z) : string := NilZero.string_of_int (Z.to_int n).

End PyStr.

(** ** JSON values, as [response.json()] and the tool arguments carry them *)

Inductive json : Type :=
| JNull
| JBool (b : bool)
| JNum (n : Z)
| JStr (s : string)
| JArr (items : list json)
| JObj (fields : list (string * json)).

(** A Python [dict] with string keys, in insertion order. *)
Definition dict : Type := list (string * json).

(** ** Exceptions

    Every exception the handlers can meet is an instance of Python's
    [Exception]: the ones the interpreter raises on ill-typed data, the
    [ValueError] of the dispatchers, and whatever [httpx] raises for a
    network failure, a bad HTTP status or an undecodable body. *)

Inductive exn : Type :=
| KeyError (key : string)
| ValueError (msg : string)
| TypeError (msg : string)
| AttributeError (msg : string)
| UpstreamError (msg : string)
| ValidationError (msg : string).

(** [str(e)].  A [KeyError] prints the [repr] of its key; the keys looked
    up by subscript in the server are plain identifiers. *)
Definition exn_str (e : exn) : string :=
  match e with
  | KeyError k => "'" ++ k ++ "'"
  | ValueError m | TypeError m | AttributeError m | UpstreamError m
  | ValidationError m => m
  end.

(** The error monad of code that can raise but has no other effect. *)
Definition res (A : Type) : Type := (exn + A)%type.

Definition ok {A} (a : A) : res A := inr a.
Definition throw {A} (e : exn) : res A := inl e.

Definition res_bind {A B} (c : res A) (k : A -> res B) : res B :=
  match c with
  | inl e => inl e
  | inr a => k a
  end.

Declare Scope res_scope.
Delimit Scope res_scope with res.
Notation "x <- c ;; k" := (res_bind c (fun x => k))
  (at level 61, c at next level, right associativity) : res_scope.

Fixpoint res_map {A B} (f : A -> res B) (l : list A) : res (list B) :=
  match l with
  | [] => ok []
  | a :: l' =>
      (b <- f a ;;
       bs <- res_map f l' ;;
       ok (b :: bs))%res
  end.

(** ** Python primitives on JSON values *)

Module Py.

(** [type(v).__name__]. *)
Definition type_name (v : json) : string :=
  match v with
  | JNull => "NoneType"
  | JBool _ => "bool"
  | JNum _ => "int"
  | JStr _ => "str"
  | JArr _ => "list"
  | JObj _ => "dict"
  end.

(** [bool(v)]. *)
Definition truthy (v : json) : bool :=
  match v with
  | JNull => false
  | JBool b => b
  | JNum n => negb (n =? 0)
  | JStr s => negb (String.eqb s EmptyString)
  | JArr l => match l with [] => false | _ => true end
  | JObj f => match f with [] => false | _ => true end
  end.

(** The integer an [int] or a [bool] stands for ([bool] is a subclass of
    [int]). *)
Definition as_int (v : json) : option Z :=
  match v with
  | JNum n => Some n
  | JBool b => Some (if b then 1 else 0)
  | _ => None
  end.

(** Lookup in a [dict]. *)
Fixpoint lookup (k : string) (d : dict) : option json :=
  match d with
  | [] => None
  | (k', v) :: d' => if String.eqb k k' then Some v else lookup k d'
  end.

(** [d.get(k, default)] on a [dict]. *)
Definition get_or (d : dict) (k : string) (default : json) : json :=
  match lookup k d with
  | Some v => v
  | None => default
  end.

(** [d[k]]. *)
Definition subscript (d : dict) (k : string) : res json :=
  match lookup k d with
  | Some v => ok v
  | None => throw (KeyError k)
  end.

(** [d[k] = v]: replaces in place, or appends a new key. *)
Fixpoint set (k : string) (v : json) (d : dict) : dict :=
  match d with
  | [] => [(k, v)]
  | (k', v') :: d' =>
      if String.eqb k k' then (k, v) :: d' else (k', v') :: set k v d'
  end.

(** [v.get(k, default)] on an arbitrary value: only a [dict] has the
    method. *)
Definition get (v : json) (k : string) (default : json) : res json :=
  match v with
  | JObj d => ok (get_or d k default)
  | _ => throw (AttributeError
                  ("'" ++ type_name v ++ "' object has no attribute 'get'"))
  end.

(** [min(a, b)] with [b] an [int]: Python answers [b] when [b < a] and
    [a] itself otherwise. *)
Definition min_int (a : json) (b : Z) : res json :=
  match as_int a with
  | Some n => if b <? n then ok (JNum b) else ok a
  | None => throw (TypeError
                     ("'<' not supported between instances of 'int' and '"
                      ++ type_name a ++ "'"))
  end.

(** [l[:stop]] on a sequence, for an integer [stop] of either sign. *)
Definition take {A} (stop : Z) (l : list A) : list A :=
  if 0 <=? stop then firstn (Z.to_nat stop) l
  else firstn (Z.to_nat (Z.of_nat (List.length l) + stop)) l.

(** The upper bound of a slice: [None] leaves the sequence whole, an
    [int] cuts it, anything else is rejected. *)
Definition slice_stop (stop : json) : res (option Z) :=
  match stop with
  | JNull => ok None
  | _ =>
      match as_int stop with
      | Some n => ok (Some n)
      | None => throw (TypeError
          "slice indices must be integers or None or have an __index__ method")
      end
  end.

Definition take_opt {A} (stop : option Z) (l : list A) : list A :=
  match stop with
  | None => l
  | Some n => take n l
  end.

(** [v[:stop]]: lists and strings are sliced, a [dict] rejects the slice
    as a key (CPython up to 3.11), the other values have no subscript. *)
Definition slice_to (v stop : json) : res json :=
  match v with
  | JArr l =>
      (n <- slice_stop stop ;;
       ok (JArr (take_opt n l)))%res
  | JStr s =>
      (n <- slice_stop stop ;;
       ok (JStr (string_of_list_ascii (take_opt n (list_ascii_of_string s)))))%res
  | JObj _ => throw (TypeError "unhashable type: 'slice'")
  | _ => throw (TypeError ("'" ++ type_name v ++ "' object is not subscriptable"))
  end.

(** The items a [for] loop (or [list.extend]) draws from a value. *)
Definition iter (v : json) : res (list json) :=
  match v with
  | JArr l => ok l
  | JStr s => ok (map (fun c => JStr (String c EmptyString)) (list_ascii_of_string s))
  | JObj d => ok (map (fun kv => JStr (fst kv)) d)
  | _ => throw (TypeError ("'" ++ type_name v ++ "' object is not iterable"))
  end.

End Py.

(** ** [json.dumps(v, indent=2)] *)

Module Json.

Definition hex_digit (n : nat) : string :=
  match get n "0123456789abcdef" with
  | Some c => String c EmptyString
  | None => EmptyString
  end.

(** One character inside a JSON string, with [ensure_ascii] on: the
    quote, the backslash and everything outside space..tilde are
    escaped. *)
Definition escape_char (c : ascii) : string :=
  let n := nat_of_ascii c in
  (if n =? 34 then "\" ++ PyStr.dq
   else if n =? 92 then "\\"
   else if n =? 10 then "\n"
   else if n =? 13 then "\r"
   else if n =? 9 then "\t"
   else if n =? 12 then "\f"
   else if n =? 8 then "\b"
   else if (n <? 32) || (126 <? n)
        then "\u00" ++ hex_digit (n / 16) ++ hex_digit (n mod 16)
        else String c EmptyString)%nat.

Definition quote (s : string) : string :=
  PyStr.dq ++ concat EmptyString (map escape_char (list_ascii_of_string s)) ++ PyStr.dq.

Fixpoint spaces (n : nat) : string :=
  match n with
  | O => EmptyString
  | S k => "  " ++ spaces k
  end.

Definition newline_indent (lvl : nat) : string := PyStr.nl ++ spaces lvl.

Fixpoint dumps_at (lvl : nat) (v : json) : string :=
  match v with
  | JNull => "null"
  | JBool true => "true"
  | JBool false => "false"
  | JNum n => PyStr.of_Z n
  | JStr s => quote s
  | JArr [] => "[]"
  | JArr l =>
      "[" ++ newline_indent (S lvl)
      ++ PyStr.join ("," ++ newline_indent (S lvl)) (map (dumps_at (S lvl)) l)
      ++ newline_indent lvl ++ "]"
  | JObj [] => "{}"
  | JObj f =>
      "{" ++ newline_indent (S lvl)
      ++ PyStr.join ("," ++ newline_indent (S lvl))
           (map (fun kv => quote (fst kv) ++ ": " ++ dumps_at (S lvl) (snd kv)) f)
      ++ newline_indent lvl ++ "}"
  end.

Definition dumps (v : json) : string := dumps_at 0 v.

End Json.

(** ** The world: requests issued and log records written *)

Record request : Type := { url : string; params : dict }.

Inductive level : Type := WARNING | ERROR.

Record world : Type := {
  sent : list request;
  logged : list (level * string)
}.

Definition fresh : world := {| sent := []; logged := [] |}.

(** Code that can raise and that reads or extends the world.  The world
    survives an exception: a request that was sent stays sent. *)
Definition M (A : Type) : Type := world -> res A * world.

Definition ret {A} (a : A) : M A := fun w => (inr a, w).

Definition bind {A B} (c : M A) (k : A -> M B) : M B :=
  fun w =>
    match c w with
    | (inl e, w') => (inl e, w')
    | (inr a, w') => k a w'
    end.

Definition lift {A} (c : res A) : M A := fun w => (c, w).

Definition raise {A} (e : exn) : M A := lift (throw e).

(** [try: c  except Exception as e: h e]. *)
Definition try_except {A} (c : M A) (h : exn -> M A) : M A :=
  fun w =>
    match c w with
    | (inl e, w') => h e w'
    | (inr a, w') => (inr a, w')
    end.

Definition log (l : level) (msg : string) : M unit :=
  fun w => (inr tt, {| sent := sent w; logged := List.app (logged w) [(l, msg)] |}).

Declare Scope io_scope.
Delimit Scope io_scope with io.
Notation "x <- c ;; k" := (bind c (fun x => k))
  (at level 61, c at next level, right associativity) : io_scope.
Notation "c ;; k" := (bind c (fun _ => k))
  (at level 61, right associativity) : io_scope.

(** ** Result envelopes of the MCP types *)

Record TextContent : Type := { type : string; text : string }.

Record CallToolResult : Type := { content : list TextContent; isError : bool }.

(** The two classes of resource contents of the MCP types:
    [TextResourceContents(uri, mimeType, text)] and
    [BlobResourceContents(uri, mimeType, blob)]. *)
Record TextResourceContents : Type := {
  text_uri : string;
  text_mimeType : option string;
  resource_text : string
}.

Record BlobResourceContents : Type := {
  blob_uri : string;
  blob_mimeType : option string;
  blob : string
}.

Inductive resource_contents : Type :=
| TextResource (c : TextResourceContents)
| BlobResource (c : BlobResourceContents).

(** [ReadResourceResult] declares
    [contents: list[TextResourceContents | BlobResourceContents]]. *)
Record ReadResourceResult : Type := { contents : list resource_contents }.

(** An object put in the [contents] list handed to [ReadResourceResult]:
    the server puts a [TextContent] there. *)
Inductive content_object : Type :=
| OfTextContent (c : TextContent)
| OfResourceContents (c : resource_contents).

(** Validation of one element of [contents]: an instance of one of the
    two declared classes passes; a [TextContent] is an instance of
    neither, and fails. *)
Definition validate_contents (o : content_object) : option resource_contents :=
  match o with
  | OfResourceContents c => Some c
  | OfTextContent _ => None
  end.

Fixpoint validate_all (objects : list content_object) : option (list resource_contents) :=
  match objects with
  | [] => Some []
  | o :: rest =>
      match validate_contents o, validate_all rest with
      | Some c, Some cs => Some (c :: cs)
      | _, _ => None
      end
  end.

(** The [uri] argument of [handle_read_resource].  The signature says
    [str]; the dispatcher of the MCP server calls the handler with the
    [AnyUrl] of the request, an object that prints as the URL and that
    [==] finds different from every [str]. *)
Inductive uri_arg : Type :=
| UriStr (s : string)
| AnyUrl (s : string).

(** [str(uri)], as an f-string formats it. *)
Definition uri_str (uri : uri_arg) : string :=
  match uri with
  | UriStr s => s
  | AnyUrl s => s
  end.

(** [uri == literal] for a [str] literal. *)
Definition uri_eq (uri : uri_arg) (literal : string) : bool :=
  match uri with
  | UriStr s => String.eqb s literal
  | AnyUrl _ => false
  end.

Record PromptMessage : Type := { role : string; message_content : TextContent }.

Record GetPromptResult : Type := {
  description : string;
  messages : list PromptMessage
}.

Definition text_content (t : string) : TextContent := {| type := "text"; text := t |}.

Definition FDA_BASE_URL : string := "https://api.fda.gov/drug/event.json".
Definition FDA_DRUG_LABEL_URL : string := "https://api.fda.gov/drug/label.json".
Definition FDA_ENFORCEMENT_URL : string := "https://api.fda.gov/drug/enforcement.json".

(** ** The server *)

Section Server.

(** The upstream API: the answer to the [n]-th request of a run, either
    the decoded JSON body or the exception raised by [client.get],
    [raise_for_status] or [response.json]. *)
Variable upstream : nat -> request -> res json.

(** [repr] of a list or a dict, used only when such a value is formatted
    into a string. *)
Variable py_repr : json -> string.

(** The clock: [today] is the day [datetime.now()] falls on, counted in
    days, and [strftime_Ymd] renders a day as YYYYMMDD. *)
Variable today : Z.
Variable strftime_Ymd : Z -> string.

Local Open Scope io_scope.

(** [async with httpx.AsyncClient() as client:
       response = await client.get(u, params=p)
       response.raise_for_status()
       data = response.json()] *)
Definition http_get (u : string) (p : dict) : M json :=
  fun w =>
    let r := {| url := u; params := p |} in
    (upstream (List.length (sent w)) r,
     {| sent := List.app (sent w) [r]; logged := logged w |}).

(** A value formatted into an f-string. *)
Definition fmt (v : json) : string :=
  match v with
  | JStr s => s
  | JNum n => PyStr.of_Z n
  | JBool true => "True"
  | JBool false => "False"
  | JNull => "None"
  | _ => py_repr v
  end.

(** [v.replace(old, new)], [v.split(sep)] and [v.strip()] exist on
    strings only. *)
Definition str_method {A} (name : string) (f : string -> A) (v : json) : res A :=
  match v with
  | JStr s => ok (f s)
  | _ => throw (AttributeError
                  ("'" ++ Py.type_name v ++ "' object has no attribute '" ++ name ++ "'"))
  end.

Definition unknown : json := JStr "Unknown".
Definition not_available : json := JArr [JStr "Not available"].

(** [data.get("meta", {}).get("results", {}).get("total", 0)] *)
Definition total_results (data : json) : res json :=
  (meta <- Py.get data "meta" (JObj []) ;;
   results <- Py.get meta "results" (JObj []) ;;
   Py.get results "total" (JNum 0))%res.

Definition tool_result (result : json) : CallToolResult :=
  {| content := [text_content (Json.dumps result)]; isError := false |}.

(** *** [search_drug_events] *)

(** The dict built for one event in the loop of [_search_drug_events]. *)
Definition process_event (event : json) : res json :=
  (report_id <- Py.get event "safetyreportid" unknown ;;
   receive_date <- Py.get event "receivedate" unknown ;;
   serious <- Py.get event "serious" unknown ;;
   patient <- Py.get event "patient" (JObj []) ;;
   patient_age <- Py.get patient "patientonsetage" unknown ;;
   patient <- Py.get event "patient" (JObj []) ;;
   patient_sex <- Py.get patient "patientsex" unknown ;;
   patient <- Py.get event "patient" (JObj []) ;;
   reaction <- Py.get patient "reaction" (JArr []) ;;
   reaction_items <- Py.iter reaction ;;
   reactions <- res_map (fun r => Py.get r "reactionmeddrapt" unknown) reaction_items ;;
   patient <- Py.get event "patient" (JObj []) ;;
   drug <- Py.get patient "drug" (JArr []) ;;
   drug_items <- Py.iter drug ;;
   drugs <- res_map (fun d =>
              name <- Py.get d "medicinalproduct" unknown ;;
              indication <- Py.get d "drugindication" unknown ;;
              ok (JObj [("name", name); ("indication", indication)]))
            drug_items ;;
   ok (JObj [("report_id", report_id);
             ("receive_date", receive_date);
             ("serious", serious);
             ("patient_age", patient_age);
             ("patient_sex", patient_sex);
             ("reactions", JArr reactions);
             ("drugs", JArr drugs)]))%res.

(** The query parameters of [_search_drug_events], up to the request. *)
Definition search_drug_events_params (arguments : dict) : res dict :=
  (drug_name <- Py.subscript arguments "drug_name" ;;
   let limit := Py.get_or arguments "limit" (JNum 10) in
   let date_range := Py.get_or arguments "date_range" JNull in
   let search_query :=
     "patient.drug.medicinalproduct:" ++ PyStr.dq ++ fmt drug_name ++ PyStr.dq in
   capped <- Py.min_int limit 100 ;;
   let params := [("search", JStr search_query); ("limit", capped)] in
   if Py.truthy date_range
   then
     range <- str_method "replace" (PyStr.replace "_to_" " TO ") date_range ;;
     ok (Py.set "search"
           (JStr (search_query ++ " AND receivedate:[" ++ range ++ "]")) params)
   else ok params)%res.

(** The [result] dict of [_search_drug_events], before serialisation. *)
Definition search_drug_events_result (arguments : dict) : M json :=
  params <- lift (search_drug_events_params arguments) ;;
  let limit := Py.get_or arguments "limit" (JNum 10) in
  data <- http_get FDA_BASE_URL params ;;
  lift (events <- Py.get data "results" (JArr []) ;;
        page <- Py.slice_to events limit ;;
        items <- Py.iter page ;;
        processed_events <- res_map process_event items ;;
        total <- total_results data ;;
        ok (JObj [("total_results", total);
                  ("events", JArr processed_events)]))%res.

Definition _search_drug_events (arguments : dict) : M CallToolResult :=
  result <- search_drug_events_result arguments ;;
  ret (tool_result result).

(** *** [get_drug_label_info] *)

Definition process_label (label : json) : res json :=
  (openfda <- Py.get label "openfda" (JObj []) ;;
   brand_names <- Py.get openfda "brand_name" (JArr []) ;;
   generic_names <- Py.get openfda "generic_name" (JArr []) ;;
   manufacturer <- Py.get openfda "manufacturer_name" (JArr []) ;;
   substance_names <- Py.get openfda "substance_name" (JArr []) ;;
   product_type <- Py.get openfda "product_type" (JArr []) ;;
   route <- Py.get openfda "route" (JArr []) ;;
   indications_and_usage <- Py.get label "indications_and_usage" not_available ;;
   warnings <- Py.get label "warnings" not_available ;;
   adverse_reactions <- Py.get label "adverse_reactions" not_available ;;
   dosage_and_administration <-
     Py.get label "dosage_and_administration" not_available ;;
   ok (JObj [("brand_names", brand_names);
             ("generic_names", generic_names);
             ("manufacturer", manufacturer);
             ("substance_names", substance_names);
             ("product_type", product_type);
             ("route", route);
             ("indications_and_usage", indications_and_usage);
             ("warnings", warnings);
             ("adverse_reactions", adverse_reactions);
             ("dosage_and_administration", dosage_and_administration)]))%res.

Definition label_search (drug_name : string) : string :=
  "openfda.brand_name:" ++ PyStr.dq ++ drug_name ++ PyStr.dq
  ++ " OR openfda.generic_name:" ++ PyStr.dq ++ drug_name ++ PyStr.dq.

Definition get_drug_label_info_params (arguments : dict) : res dict :=
  (drug_name <- Py.subscript arguments "drug_name" ;;
   let limit := Py.get_or arguments "limit" (JNum 5) in
   capped <- Py.min_int limit 50 ;;
   ok [("search", JStr (label_search (fmt drug_name))); ("limit", capped)])%res.

Definition get_drug_label_info_result (arguments : dict) : M json :=
  params <- lift (get_drug_label_info_params arguments) ;;
  let limit := Py.get_or arguments "limit" (JNum 5) in
  data <- http_get FDA_DRUG_LABEL_URL params ;;
  lift (labels <- Py.get data "results" (JArr []) ;;
        page <- Py.slice_to labels limit ;;
        items <- Py.iter page ;;
        processed_labels <- res_map process_label items ;;
        total <- total_results data ;;
        ok (JObj [("total_results", total);
                  ("labels", JArr processed_labels)]))%res.

Definition _get_drug_label_info (arguments : dict) : M CallToolResult :=
  result <- get_drug_label_info_result arguments ;;
  ret (tool_result result).

(** *** [search_drug_recalls] *)

Definition process_recall (recall : json) : res json :=
  (recall_number <- Py.get recall "recall_number" unknown ;;
   product_description <- Py.get recall "product_description" unknown ;;
   reason_for_recall <- Py.get recall "reason_for_recall" unknown ;;
   classification <- Py.get recall "classification" unknown ;;
   status <- Py.get recall "status" unknown ;;
   recall_initiation_date <- Py.get recall "recall_initiation_date" unknown ;;
   firm_name <- Py.get recall "recalling_firm" unknown ;;
   distribution_pattern <- Py.get recall "distribution_pattern" unknown ;;
   ok (JObj [("recall_number", recall_number);
             ("product_description", product_description);
             ("reason_for_recall", reason_for_recall);
             ("classification", classification);
             ("status", status);
             ("recall_initiation_date", recall_initiation_date);
             ("firm_name", firm_name);
             ("distribution_pattern", distribution_pattern)]))%res.

Definition search_drug_recalls_params (arguments : dict) : res dict :=
  (drug_name <- Py.subscript arguments "drug_name" ;;
   let classification := Py.get_or arguments "classification" JNull in
   let limit := Py.get_or arguments "limit" (JNum 10) in
   let search_parts :=
     List.app
       ["product_description:" ++ PyStr.dq ++ fmt drug_name ++ PyStr.dq]
       (if Py.truthy classification
        then ["classification:" ++ PyStr.dq ++ fmt classification ++ PyStr.dq]
        else []) in
   capped <- Py.min_int limit 100 ;;
   ok [("search", JStr (PyStr.join " AND " search_parts)); ("limit", capped)])%res.

Definition search_drug_recalls_result (arguments : dict) : M json :=
  params <- lift (search_drug_recalls_params arguments) ;;
  let limit := Py.get_or arguments "limit" (JNum 10) in
  data <- http_get FDA_ENFORCEMENT_URL params ;;
  lift (recalls <- Py.get data "results" (JArr []) ;;
        page <- Py.slice_to recalls limit ;;
        items <- Py.iter page ;;
        processed_recalls <- res_map process_recall items ;;
        total <- total_results data ;;
        ok (JObj [("total_results", total);
                  ("recalls", JArr processed_recalls)]))%res.

Definition _search_drug_recalls (arguments : dict) : M CallToolResult :=
  result <- search_drug_recalls_result arguments ;;
  ret (tool_result result).

(** *** Tool dispatch *)

Definition handle_call_tool (name : string) (arguments : dict) : M CallToolResult :=
  try_except
    (if String.eqb name "search_drug_events" then _search_drug_events arguments
     else if String.eqb name "get_drug_label_info" then _get_drug_label_info arguments
     else if String.eqb name "search_drug_recalls" then _search_drug_recalls arguments
     else raise (ValueError ("Unknown tool: " ++ name)))
    (fun e =>
       log ERROR ("Error calling tool " ++ name ++ ": " ++ exn_str e) ;;
       ret {| content := [text_content ("Error: " ++ exn_str e)];
              isError := true |}).

(** *** Resources *)

Definition _get_recent_drug_events : M json :=
  let end_date := today in
  let start_date := end_date - 30 in
  let date_range := strftime_Ymd start_date ++ "_to_" ++ strftime_Ymd end_date in
  http_get FDA_BASE_URL
    [("search", JStr ("receivedate:[" ++ PyStr.replace "_to_" " TO " date_range ++ "]"));
     ("limit", JNum 20)].

Definition popular_drugs : list string :=
  ["aspirin"; "ibuprofen"; "acetaminophen"; "metformin"; "lisinopril"].

(** The body of the [try] for one drug: the labels to append. *)
Definition fetch_popular (drug : string) : M (list json) :=
  data <- http_get FDA_DRUG_LABEL_URL
            [("search", JStr (label_search drug)); ("limit", JNum 1)] ;;
  results <- lift (Py.get data "results" JNull) ;;
  if Py.truthy results then lift (Py.iter results) else ret [].

(** The [for] loop of [_get_popular_drug_labels], threading [all_labels]. *)
Fixpoint popular_loop (drugs : list string) (all_labels : list json) : M (list json) :=
  match drugs with
  | [] => ret all_labels
  | drug :: rest =>
      all_labels' <-
        try_except
          (found <- fetch_popular drug ;; ret (List.app all_labels found))
          (fun e =>
             log WARNING ("Error fetching data for " ++ drug ++ ": " ++ exn_str e) ;;
             ret all_labels) ;;
      popular_loop rest all_labels'
  end.

Definition _get_popular_drug_labels : M json :=
  all_labels <- popular_loop (Py.take 3 popular_drugs) [] ;;
  ret (JObj [("results", JArr all_labels)]).

Definition _get_recent_recalls : M json :=
  http_get FDA_ENFORCEMENT_URL
    [("search", JStr "product_type:Drugs");
     ("limit", JNum 20);
     ("sort", JStr "recall_initiation_date:desc")].

(** The text of the [ValidationError] that the constructor of
    [ReadResourceResult] raises for a rejected [contents] list. *)
Variable validation_message : list content_object -> string.

(** [ReadResourceResult(contents=objects)]: the model validates its
    field on construction and raises [ValidationError] when an element
    is of neither declared class. *)
Definition new_ReadResourceResult (objects : list content_object) : res ReadResourceResult :=
  match validate_all objects with
  | Some cs => ok {| contents := cs |}
  | None => throw (ValidationError (validation_message objects))
  end.

(** Lines 179-209.  The result is built inside the [try], so a failure
    of its construction is caught there; the handler of the exception
    builds a result the same way, outside any [try]. *)
Definition handle_read_resource (uri : uri_arg) : M ReadResourceResult :=
  try_except
    (data <-
       (if uri_eq uri "fda://drug-events/recent" then _get_recent_drug_events
        else if uri_eq uri "fda://drug-labels/popular" then _get_popular_drug_labels
        else if uri_eq uri "fda://recalls/recent" then _get_recent_recalls
        else raise (ValueError ("Unknown resource URI: " ++ uri_str uri))) ;;
     lift (new_ReadResourceResult [OfTextContent (text_content (Json.dumps data))]))
    (fun e =>
       log ERROR ("Error reading resource " ++ uri_str uri ++ ": " ++ exn_str e) ;;
       lift (new_ReadResourceResult
               [OfTextContent (text_content ("Error reading resource: " ++ exn_str e))])).

(** *** Prompts *)

Definition user_message (t : string) : PromptMessage :=
  {| role := "user"; message_content := text_content t |}.

Definition _get_safety_analysis_prompt (arguments : dict) : res GetPromptResult :=
  (drug_name <- Py.subscript arguments "drug_name" ;;
   let focus_area := Py.get_or arguments "focus_area" (JStr "general safety") in
   let d := fmt drug_name in
   let prompt_text := PyStr.join PyStr.nl
     [ EmptyString;
       "Please analyze the safety profile of " ++ d ++ " focusing on "
         ++ fmt focus_area ++ ".";
       EmptyString;
       "Use the FDA MCP server tools to gather comprehensive data:";
       EmptyString;
       "1. Search for adverse event reports for " ++ d;
       "2. Get drug labeling information for " ++ d;
       "3. Check for any recalls or enforcement actions for " ++ d;
       EmptyString;
       "Based on this data, provide:";
       "- Summary of reported adverse events and their frequency";
       "- Analysis of warnings and precautions from labeling";
       "- Any recall history and reasons";
       "- Risk-benefit assessment";
       "- Recommendations for monitoring";
       EmptyString;
       "Please ensure your analysis is evidence-based and cite specific FDA data sources.";
       EmptyString ] in
   ok {| description := "Safety analysis prompt for " ++ d;
         messages := [user_message (PyStr.strip prompt_text)] |})%res.

(** [[drug.strip() for drug in drug_list.split(",")]] *)
Definition comparison_drugs (drug_list : json) : res (list string) :=
  (parts <- str_method "split" (PyStr.split ",") drug_list ;;
   ok (map PyStr.strip parts))%res.

Definition _get_drug_comparison_prompt (arguments : dict) : res GetPromptResult :=
  (drug_list <- Py.subscript arguments "drug_list" ;;
   drugs <- comparison_drugs drug_list ;;
   let prompt_text := PyStr.join PyStr.nl
     [ EmptyString;
       "Please compare the safety profiles of the following drugs: "
         ++ PyStr.join ", " drugs;
       EmptyString;
       "For each drug, use the FDA MCP server tools to gather:";
       "1. Adverse event data";
       "2. Drug labeling information";
       "3. Recall history";
       EmptyString;
       "Create a comparative analysis including:";
       "- Side effect profiles comparison";
       "- Relative safety rankings";
       "- Different risk factors for each drug";
       "- Contraindications and warnings comparison";
       "- Historical recall patterns";
       EmptyString;
       "Present the comparison in a clear, structured format that helps understand the relative risks and benefits of each medication.";
       EmptyString ] in
   ok {| description := "Comparative analysis prompt for: " ++ PyStr.join ", " drugs;
         messages := [user_message (PyStr.strip prompt_text)] |})%res.

Definition handle_get_prompt (name : string) (arguments : dict) : M GetPromptResult :=
  try_except
    (if String.eqb name "analyze_drug_safety"
     then lift (_get_safety_analysis_prompt arguments)
     else if String.eqb name "drug_comparison"
     then lift (_get_drug_comparison_prompt arguments)
     else raise (ValueError ("Unknown prompt: " ++ name)))
    (fun e =>
       log ERROR ("Error getting prompt " ++ name ++ ": " ++ exn_str e) ;;
       ret {| description := "Error getting prompt";
              messages := [user_message ("Error: " ++ exn_str e)] |}).

End Server.

(** ** The catalogues: [handle_list_tools], [handle_list_resources],
    [handle_list_prompts] *)

Module Tool.
Record t : Type := { name : string; description : string; inputSchema : json }.
End Tool.

Module Resource.
Record t : Type := {
  uri : string;
  name : string;
  description : string;
  mimeType : string
}.
End Resource.

Module PromptArgument.
Record t : Type := { name : string; description : string; required : bool }.
End PromptArgument.

Module Prompt.
Record t : Type := {
  name : string;
  description : string;
  arguments : list PromptArgument.t
}.
End Prompt.

Record ListToolsResult : Type := { tools : list Tool.t }.
Record ListResourcesResult : Type := { resources : list Resource.t }.
Record ListPromptsResult : Type := { prompts : list Prompt.t }.

Definition handle_list_tools : ListToolsResult :=
  {| tools :=
       [ {| Tool.name := "search_drug_events";
            Tool.description := "Search FDA adverse event reports for drugs";
            Tool.inputSchema :=
              JObj [("type", JStr "object");
                    ("properties",
                     JObj [("drug_name",
                            JObj [("type", JStr "string");
                                  ("description", JStr "Name of the drug to search for")]);
                           ("limit",
                            JObj [("type", JStr "integer");
                                  ("description", JStr "Maximum number of results (1-1000)");
                                  ("minimum", JNum 1);
                                  ("maximum", JNum 1000);
                                  ("default", JNum 10)]);
                           ("date_range",
                            JObj [("type", JStr "string");
                                  ("description",
                                   JStr "Date range in format YYYYMMDD_to_YYYYMMDD");
                                  ("pattern", JStr "^\d{8}_to_\d{8}$")])]);
                    ("required", JArr [JStr "drug_name"])] |};
         {| Tool.name := "get_drug_label_info";
            Tool.description := "Get drug labeling information from FDA";
            Tool.inputSchema :=
              JObj [("type", JStr "object");
                    ("properties",
                     JObj [("drug_name",
                            JObj [("type", JStr "string");
                                  ("description",
                                   JStr "Name of the drug to get label information for")]);
                           ("limit",
                            JObj [("type", JStr "integer");
                                  ("description", JStr "Maximum number of results");
                                  ("minimum", JNum 1);
                                  ("maximum", JNum 100);
                                  ("default", JNum 5)])]);
                    ("required", JArr [JStr "drug_name"])] |};
         {| Tool.name := "search_drug_recalls";
            Tool.description := "Search FDA drug enforcement/recall reports";
            Tool.inputSchema :=
              JObj [("type", JStr "object");
                    ("properties",
                     JObj [("drug_name",
                            JObj [("type", JStr "string");
                                  ("description",
                                   JStr "Name of the drug to search recalls for")]);
                           ("classification",
                            JObj [("type", JStr "string");
                                  ("description",
                                   JStr "Recall classification (Class I, Class II, Class III)");
                                  ("enum", JArr [JStr "Class I"; JStr "Class II";
                                                 JStr "Class III"])]);
                           ("limit",
                            JObj [("type", JStr "integer");
                                  ("description", JStr "Maximum number of results");
                                  ("minimum", JNum 1);
                                  ("maximum", JNum 100);
                                  ("default", JNum 10)])]);
                    ("required", JArr [JStr "drug_name"])] |} ] |}.

Definition handle_list_resources : ListResourcesResult :=
  {| resources :=
       [ {| Resource.uri := "fda://drug-events/recent";
            Resource.name := "Recent Drug Adverse Events";
            Resource.description := "Recent adverse event reports from FDA";
            Resource.mimeType := "application/json" |};
         {| Resource.uri := "fda://drug-labels/popular";
            Resource.name := "Popular Drug Labels";
            Resource.description := "Labeling information for commonly searched drugs";
            Resource.mimeType := "application/json" |};
         {| Resource.uri := "fda://recalls/recent";
            Resource.name := "Recent Drug Recalls";
            Resource.description := "Recent drug recalls and enforcement actions";
            Resource.mimeType := "application/json" |} ] |}.

Definition handle_list_prompts : ListPromptsResult :=
  {| prompts :=
       [ {| Prompt.name := "analyze_drug_safety";
            Prompt.description := "Analyze drug safety data from FDA reports";
            Prompt.arguments :=
              [ {| PromptArgument.name := "drug_name";
                   PromptArgument.description := "Name of the drug to analyze";
                   PromptArgument.required := true |};
                {| PromptArgument.name := "focus_area";
                   PromptArgument.description :=
                     "Specific safety aspect to focus on (side_effects, recalls, interactions)";
                   PromptArgument.required := false |} ] |};
         {| Prompt.name := "drug_comparison";
            Prompt.description := "Compare safety profiles of multiple drugs";
            Prompt.arguments :=
              [ {| PromptArgument.name := "drug_list";
                   PromptArgument.description :=
                     "Comma-separated list of drugs to compare";
                   PromptArgument.required := true |} ] |} ] |}.

(** ** Vocabulary of the statements

    The shapes of upstream answers under which the projections do not
    raise, the upstream contract on [limit], and the fields of a projected
    event with the upstream place each one is read from. *)

Definition is_dict (v : json) : bool :=
  match v with
  | JObj _ => true
  | _ => false
  end.

Definition dict_list (v : json) : bool :=
  match v with
  | JArr l => forallb is_dict l
  | _ => false
  end.

(** The records an answer carries: the list under its key results, the
    empty list when the key is absent (the default of the handlers). *)
Definition results_of (data : json) : option (list json) :=
  match data with
  | JObj f =>
      match Py.lookup "results" f with
      | None => Some []
      | Some (JArr l) => Some l
      | Some _ => None
      end
  | _ => None
  end.

(** [meta] and [meta.results] are dicts where they are present. *)
Definition meta_ok (data : json) : bool :=
  match data with
  | JObj f =>
      match Py.get_or f "meta" (JObj []) with
      | JObj m => is_dict (Py.get_or m "results" (JObj []))
      | _ => false
      end
  | _ => false
  end.

Definition response_ok (item_ok : json -> bool) (data : json) : bool :=
  meta_ok data &&
  match results_of data with
  | Some page => forallb item_ok page
  | None => false
  end.

(** An adverse-event record: a dict whose [patient], where present, is a
    dict whose [reaction] and [drug], where present, are lists of dicts. *)
Definition event_ok (event : json) : bool :=
  match event with
  | JObj f =>
      match Py.get_or f "patient" (JObj []) with
      | JObj p =>
          dict_list (Py.get_or p "reaction" (JArr []))
          && dict_list (Py.get_or p "drug" (JArr []))
      | _ => false
      end
  | _ => false
  end.

(** A label record: a dict whose [openfda], where present, is a dict. *)
Definition label_ok (label : json) : bool :=
  match label with
  | JObj f => is_dict (Py.get_or f "openfda" (JObj []))
  | _ => false
  end.

(** The upstream contract on [limit]: of the [available] records that
    match, the answer to [req] carries as many as [req] asked for. *)
Definition serves (req : request) (data : json) (available : Z) : Prop :=
  exists k page,
    Py.lookup "limit" (params req) = Some (JNum k)
    /\ results_of data = Some page
    /\ Z.of_nat (List.length page) = Z.min k available.

(** The weaker contract: never more records than [req] asked for. *)
Definition within_limit (req : request) (data : json) : Prop :=
  exists k page,
    Py.lookup "limit" (params req) = Some (JNum k)
    /\ results_of data = Some page
    /\ Z.of_nat (List.length page) <= k.

(** A field of a projected value. *)
Definition field (k : string) (v : json) : option json :=
  match v with
  | JObj d => Py.lookup k d
  | _ => None
  end.

Definition keys (v : json) : list string :=
  match v with
  | JObj d => map fst d
  | _ => []
  end.

(** The fields of a ProjectedEvent. *)
Inductive event_field : Type :=
| F_report_id | F_receive_date | F_serious
| F_patient_age | F_patient_sex | F_reactions | F_drugs.

Definition event_fields : list event_field :=
  [F_report_id; F_receive_date; F_serious;
   F_patient_age; F_patient_sex; F_reactions; F_drugs].

Definition event_key (f : event_field) : string :=
  match f with
  | F_report_id => "report_id"
  | F_receive_date => "receive_date"
  | F_serious => "serious"
  | F_patient_age => "patient_age"
  | F_patient_sex => "patient_sex"
  | F_reactions => "reactions"
  | F_drugs => "drugs"
  end.

Definition is_sequence (f : event_field) : bool :=
  match f with
  | F_reactions | F_drugs => true
  | _ => false
  end.

(** What the upstream event holds at the place a field is read from. *)
Definition event_source (f : event_field) (event : dict) : option json :=
  let patient k :=
    match Py.lookup "patient" event with
    | Some p => field k p
    | None => None
    end in
  match f with
  | F_report_id => Py.lookup "safetyreportid" event
  | F_receive_date => Py.lookup "receivedate" event
  | F_serious => Py.lookup "serious" event
  | F_patient_age => patient "patientonsetage"
  | F_patient_sex => patient "patientsex"
  | F_reactions => patient "reaction"
  | F_drugs => patient "drug"
  end.



(** The three tools [handle_call_tool] knows. *)
Definition known_tool (name : string) : bool :=
  String.eqb name "search_drug_events"
  || String.eqb name "get_drug_label_info"
  || String.eqb name "search_drug_recalls".

(** The reaction term and the drug entry the comprehensions of
    [_search_drug_events] build from one upstream entry. *)
Definition reaction_term (r : dict) : json := Py.get_or r "reactionmeddrapt" unknown.

Definition drug_entry (d : dict) : json :=
  JObj [("name", Py.get_or d "medicinalproduct" unknown);
        ("indication", Py.get_or d "drugindication" unknown)].

(** A value that is absent ([None]) or a string. *)
Definition optional_str (v : json) : bool :=
  match v with
  | JNull | JStr _ => true
  | _ => false
  end.

(** The projection [o] of the upstream event [d] has the seven fields;
    the text Unknown stands for a scalar that is absent upstream, the empty
    list for a sequence that is absent, and a scalar that is present is
    carried over. *)
Definition projected_event (d : dict) (o : json) : Prop :=
  keys o = map event_key event_fields
  /\ forall f,
       match event_source f d with
       | None => field (event_key f) o
                 = Some (if is_sequence f then JArr [] else unknown)
       | Some v => is_sequence f = false -> field (event_key f) o = Some v
       end.

(** The reading under which every absent source, sequences included,
    would give the text Unknown. *)
Definition unknown_where_absent (d : dict) (o : json) : Prop :=
  forall f, event_source f d = None -> field (event_key f) o = Some unknown.



(** The request the popular-labels resource issues for one drug. *)
Definition popular_request (drug : string) : request :=
  {| url := FDA_DRUG_LABEL_URL;
     params := [("search", JStr (label_search drug)); ("limit", JNum 1)] |}.

(** What the body of the [try] in [_get_popular_drug_labels] makes of the
    upstream answer: the labels to append, or the exception. *)
Definition popular_outcome (answer : res json) : res (list json) :=
  (data <- answer ;;
   results <- Py.get data "results" JNull ;;
   if Py.truthy results then Py.iter results else ok [])%res.

(** The labels one answer contributes, none when the attempt failed. *)
Definition labels_of (answer : res json) : list json :=
  match popular_outcome answer with
  | inr found => found
  | inl _ => []
  end.

(** The warning one failed attempt leaves in the log. *)
Definition warning_of (drug : string) (answer : res json) : list (level * string) :=
  match popular_outcome answer with
  | inr _ => []
  | inl e => [(WARNING, "Error fetching data for " ++ drug ++ ": " ++ exn_str e)]
  end.

(** The answers to the requests for [drugs], issued in order from the
    [n]-th request of the run on. *)
Fixpoint popular_answers (upstream : nat -> request -> res json) (n : nat)
    (drugs : list string) : list (res json) :=
  match drugs with
  | [] => []
  | drug :: rest =>
      upstream n (popular_request drug) :: popular_answers upstream (S n) rest
  end.

Fixpoint warnings_of (drugs : list string) (answers : list (res json))
    : list (level * string) :=
  match drugs, answers with
  | drug :: drugs', answer :: answers' =>
      List.app (warning_of drug answer) (warnings_of drugs' answers')
  | _, _ => []
  end.

(** The result [handle_call_tool] builds from a caught exception. *)
Definition tool_error (e : exn) : CallToolResult :=
  {| content := [text_content ("Error: " ++ exn_str e)]; isError := true |}.

(** The three resources [handle_read_resource] knows. *)
Definition known_resource (uri : string) : bool :=
  String.eqb uri "fda://drug-events/recent"
  || String.eqb uri "fda://drug-labels/popular"
  || String.eqb uri "fda://recalls/recent".


(** What the three tools do with the answer once it is fetched: the page
    of records is cut to [limit], each record is projected by [process],
    and the projections are returned under [key] next to the total. *)
Definition project_page (process : json -> res json) (key : string)
    (limit data : json) : res json :=
  (records <- Py.get data "results" (JArr []) ;;
   page <- Py.slice_to records limit ;;
   items <- Py.iter page ;;
   processed <- res_map process items ;;
   total <- total_results data ;;
   ok (JObj [("total_results", total); (key, JArr processed)]))%res.

(** The common course of the three tools: the parameters are built (or
    building them raises), one GET is issued, the answer is projected. *)
Definition fetch_and_project (upstream : nat -> request -> res json)
    (u : string) (built : res dict) (process : json -> res json)
    (key : string) (limit : json) : M json :=
  (p <- lift built ;;
   data <- http_get upstream u p ;;
   lift (project_page process key limit data))%io.

(** A stand-in for the upstream API in worked examples: it answers every
    request with the same body. *)
Definition constant_upstream (data : json) : nat -> request -> res json :=
  fun _ _ => ok data.

(** A stand-in for [repr] in worked examples. *)
Definition no_repr : json -> string := fun _ => EmptyString.

(** *** Vocabulary of the further properties *)

(** What each tool does, read off its handler: the endpoint it asks, the
    parameters it builds, the projection of one record, the key the
    projections are returned under and the limit it takes when the caller
    gives none. *)
Record tool_spec : Type := {
  ts_endpoint : string;
  ts_build : dict -> res dict;
  ts_process : json -> res json;
  ts_key : string;
  ts_default_limit : Z;
  ts_cap : Z
}.

Definition tool_specs (py_repr : json -> string) : list (string * tool_spec) :=
  [("search_drug_events",
    {| ts_endpoint := FDA_BASE_URL;
       ts_build := search_drug_events_params py_repr;
       ts_process := process_event;
       ts_key := "events";
       ts_default_limit := 10;
       ts_cap := 100 |});
   ("get_drug_label_info",
    {| ts_endpoint := FDA_DRUG_LABEL_URL;
       ts_build := get_drug_label_info_params py_repr;
       ts_process := process_label;
       ts_key := "labels";
       ts_default_limit := 5;
       ts_cap := 50 |});
   ("search_drug_recalls",
    {| ts_endpoint := FDA_ENFORCEMENT_URL;
       ts_build := search_drug_recalls_params py_repr;
       ts_process := process_recall;
       ts_key := "recalls";
       ts_default_limit := 10;
       ts_cap := 100 |})].

(** The names a catalogue lists. *)
Definition tool_names : list string := map Tool.name (tools handle_list_tools).
Definition resource_uris : list string := map Resource.uri (resources handle_list_resources).
Definition prompt_names : list string := map Prompt.name (prompts handle_list_prompts).

(** The strings of a JSON list. *)
Definition strings_of (v : json) : list string :=
  match v with
  | JArr l => flat_map (fun x => match x with JStr s => [s] | _ => [] end) l
  | _ => []
  end.

(** The keys an input schema marks as required. *)
Definition schema_required (schema : json) : list string :=
  match field "required" schema with
  | Some l => strings_of l
  | None => []
  end.

(** The default an input schema declares for the property [key]. *)
Definition schema_default (key : string) (schema : json) : option json :=
  match field "properties" schema with
  | Some props =>
      match field key props with
      | Some p => field "default" p
      | None => None
      end
  | None => None
  end.

(** The names of the arguments a prompt marks as required. *)
Definition prompt_required (p : Prompt.t) : list string :=
  map PromptArgument.name (filter PromptArgument.required (Prompt.arguments p)).

(** The fields of a ProjectedRecall, each with the upstream key it is read
    from. *)
Definition recall_fields : list (string * string) :=
  [("recall_number", "recall_number");
   ("product_description", "product_description");
   ("reason_for_recall", "reason_for_recall");
   ("classification", "classification");
   ("status", "status");
   ("recall_initiation_date", "recall_initiation_date");
   ("firm_name", "recalling_firm");
   ("distribution_pattern", "distribution_pattern")].

(** The total an answer reports under meta.results.total, 0 when any of
    the three keys is absent. *)
Definition upstream_total (data : json) : json :=
  match field "meta" data with
  | None => JNum 0
  | Some meta =>
      match field "results" meta with
      | None => JNum 0
      | Some results =>
          match field "total" results with
          | None => JNum 0
          | Some total => total
          end
      end
  end.

(** The result [handle_get_prompt] builds from a caught exception. *)
Definition prompt_error (e : exn) : GetPromptResult :=
  {| description := "Error getting prompt";
     messages := [user_message ("Error: " ++ exn_str e)] |}.

(** The lines of the two prompts, without the blank line the templates
    open and close with. *)
Definition safety_analysis_lines (drug_name focus_area : string) : list string :=
  [ "Please analyze the safety profile of " ++ drug_name ++ " focusing on "
      ++ focus_area ++ ".";
    EmptyString;
    "Use the FDA MCP server tools to gather comprehensive data:";
    EmptyString;
    "1. Search for adverse event reports for " ++ drug_name;
    "2. Get drug labeling information for " ++ drug_name;
    "3. Check for any recalls or enforcement actions for " ++ drug_name;
    EmptyString;
    "Based on this data, provide:";
    "- Summary of reported adverse events and their frequency";
    "- Analysis of warnings and precautions from labeling";
    "- Any recall history and reasons";
    "- Risk-benefit assessment";
    "- Recommendations for monitoring";
    EmptyString;
    "Please ensure your analysis is evidence-based and cite specific FDA data sources." ].

Definition safety_analysis_text (drug_name focus_area : string) : string :=
  PyStr.join PyStr.nl (safety_analysis_lines drug_name focus_area).

Definition drug_comparison_lines (drugs : list string) : list string :=
  [ "Please compare the safety profiles of the following drugs: "
      ++ PyStr.join ", " drugs;
    EmptyString;
    "For each drug, use the FDA MCP server tools to gather:";
    "1. Adverse event data";
    "2. Drug labeling information";
    "3. Recall history";
    EmptyString;
    "Create a comparative analysis including:";
    "- Side effect profiles comparison";
    "- Relative safety rankings";
    "- Different risk factors for each drug";
    "- Contraindications and warnings comparison";
    "- Historical recall patterns";
    EmptyString;
    "Present the comparison in a clear, structured format that helps understand the relative risks and benefits of each medication." ].

Definition drug_comparison_text (drugs : list string) : string :=
  PyStr.join PyStr.nl (drug_comparison_lines drugs).

(** A stand-in for the upstream API in worked examples: it is down. *)
Definition failing_upstream (msg : string) : nat -> request -> res json :=
  fun _ _ => throw (UpstreamError msg).

(** A stand-in for [strftime] in worked examples: the day number in
    decimal. *)
Definition day_number : Z -> string := PyStr.of_Z.

(** ** Sanity checks of the primitives *)

Example strip_ex : PyStr.strip "  ibuprofen  " = "ibuprofen".
Proof. reflexivity. Qed.

Example split_ex : PyStr.split "," "a,,b," = ["a"; ""; "b"; ""].
Proof. reflexivity. Qed.

Example replace_ex :
  PyStr.replace "_to_" " TO " "20240101_to_20240131" = "20240101 TO 20240131".
Proof. reflexivity. Qed.

Example of_Z_ex : (PyStr.of_Z 0, PyStr.of_Z 100, PyStr.of_Z (-7)) = ("0", "100", "-7").
Proof. reflexivity. Qed.

Example comparison_prompt_ex :
  match _get_drug_comparison_prompt [("drug_list", JStr "Aspirin, ibuprofen ,Tylenol")] with
  | inr r => description r
  | inl _ => EmptyString
  end = "Comparative analysis prompt for: Aspirin, ibuprofen, Tylenol".
Proof. reflexivity. Qed.

Example unknown_prompt_ex :
  fst (handle_get_prompt (fun _ => EmptyString) "summarise" [] fresh)
  = ok {| description := "Error getting prompt";
          messages := [user_message "Error: Unknown prompt: summarise"] |}.
Proof. reflexivity. Qed.

Example missing_argument_ex :
  fst (handle_get_prompt (fun _ => EmptyString) "analyze_drug_safety" [] fresh)
  = ok {| description := "Error getting prompt";
          messages := [user_message "Error: 'drug_name'"] |}.
Proof. reflexivity. Qed.

Example negative_slice_ex : Py.take (-1) [1; 2; 3] = [1; 2].
Proof. reflexivity. Qed.

Example dumps_ex :
  Json.dumps (JObj [("total_results", JNum 0); ("events", JArr [])])
  = "{" ++ PyStr.nl ++ "  " ++ PyStr.dq ++ "total_results" ++ PyStr.dq ++ ": 0,"
    ++ PyStr.nl ++ "  " ++ PyStr.dq ++ "events" ++ PyStr.dq ++ ": []" ++ PyStr.nl ++ "}".
Proof. reflexivity. Qed.

(** ** Facts about the string primitives *)

Module PyStrFacts.
Import PyStr.

Lemma prefix_char c a s :
  prefix (String c EmptyString) (String a s) = Ascii.eqb a c.
Proof.
  simpl. destruct (ascii_dec c a) as [->|N].
  - rewrite Ascii.eqb_refl. now destruct s.
  - symmetry. apply Ascii.eqb_neq. congruence.
Qed.

#[local] Arguments prefix : simpl never.

Lemma segments_nonempty sep : forall s k, segments sep k s <> [].
Proof.
  induction s as [|c s IH]; intros k; simpl; [discriminate|].
  destruct k; [|apply IH].
  destruct (prefix sep (String c s)); [discriminate|].
  destruct (segments sep 0 s); discriminate.
Qed.

Lemma join_cons_char sep c seg rest :
  join sep (String c seg :: rest) = String c (join sep (seg :: rest)).
Proof. destruct rest; reflexivity. Qed.

Lemma join_empty_head sep parts :
  parts <> [] -> join sep (EmptyString :: parts) = sep ++ join sep parts.
Proof. destruct parts; [congruence | reflexivity]. Qed.

(** [s.replace(old, new)] is [new.join(s.split(old))]. *)
Lemma replace_from_join old new : forall s k,
  replace_from old new k s = join new (segments old k s).
Proof.
  induction s as [|c s IH]; intros k; simpl; [reflexivity|].
  destruct k; [|apply IH].
  destruct (prefix old (String c s)).
  - rewrite join_empty_head by apply segments_nonempty.
    now rewrite IH.
  - rewrite IH.
    destruct (segments old 0 s) eqn:E.
    + now apply segments_nonempty in E.
    + now rewrite join_cons_char.
Qed.

Lemma replace_join_split old new s :
  replace old new s = join new (split old s).
Proof. apply replace_from_join. Qed.

Section OneCharacter.
Variable c : ascii.

Lemma segments_char a s :
  segments (String c EmptyString) 0 (String a s)
  = if Ascii.eqb a c then EmptyString :: segments (String c EmptyString) 0 s
    else match segments (String c EmptyString) 0 s with
         | seg :: rest => String a seg :: rest
         | [] => [String a EmptyString]
         end.
Proof.
  cbn [segments]. rewrite prefix_char. reflexivity.
Qed.

Lemma join_split_char s : join (String c EmptyString) (split (String c EmptyString) s) = s.
Proof.
  unfold split. induction s as [|a s IH]; [reflexivity|].
  rewrite segments_char. destruct (Ascii.eqb a c) eqn:E.
  - apply Ascii.eqb_eq in E. subst a.
    rewrite join_empty_head by apply segments_nonempty.
    now rewrite IH.
  - destruct (segments (String c EmptyString) 0 s) eqn:S0.
    + now apply segments_nonempty in S0.
    + rewrite join_cons_char. now rewrite IH.
Qed.

Lemma split_char_free s :
  Forall (fun seg => has_char c seg = false) (split (String c EmptyString) s).
Proof.
  unfold split. induction s as [|a s IH]; [repeat constructor|].
  rewrite segments_char. destruct (Ascii.eqb a c) eqn:E.
  - constructor; [reflexivity | exact IH].
  - destruct (segments (String c EmptyString) 0 s) eqn:S0.
    + now apply segments_nonempty in S0.
    + inversion IH; subst. constructor; [|assumption].
      simpl. now rewrite E.
Qed.

Lemma split_char_length s :
  List.length (split (String c EmptyString) s) = S (count_char c s).
Proof.
  unfold split. induction s as [|a s IH]; [reflexivity|].
  rewrite segments_char. simpl count_char. destruct (Ascii.eqb a c).
  - simpl. now rewrite IH.
  - destruct (segments (String c EmptyString) 0 s) eqn:S0.
    + now apply segments_nonempty in S0.
    + simpl in *. exact IH.
Qed.
End OneCharacter.

Lemma lstrip_spec s :
  exists l, s = l ++ lstrip s /\ all_space l = true
            /\ starts_with_space (lstrip s) = false.
Proof.
  induction s as [|a s (l & E & A & B)].
  - exists EmptyString. repeat split.
  - simpl. destruct (is_space a) eqn:Sa.
    + exists (String a l). simpl. rewrite Sa, A. repeat split; [now f_equal | exact B].
    + exists EmptyString. simpl. now rewrite Sa.
Qed.

Lemma rstrip_spec s :
  exists r, s = rstrip s ++ r /\ all_space r = true
            /\ ends_with_space (rstrip s) = false.
Proof.
  induction s as [|a s (r & E & A & B)].
  - exists EmptyString. repeat split.
  - simpl. destruct (rstrip s) as [|b t] eqn:R.
    + simpl in E. subst r. destruct (is_space a) eqn:Sa.
      * exists (String a s). simpl. now rewrite Sa, A.
      * exists s. simpl. now rewrite Sa.
    + exists r. repeat split; [ | exact A | exact B].
      change (String a s = String a (String b t ++ r)). now rewrite <- E.
Qed.

Lemma rstrip_keeps_start s :
  starts_with_space s = false -> starts_with_space (rstrip s) = false.
Proof.
  destruct s as [|a s]; [reflexivity|]. simpl. intros Sa.
  destruct (rstrip s); [now rewrite Sa | exact Sa].
Qed.

Lemma append_assoc (a b c : string) : (a ++ b) ++ c = a ++ b ++ c.
Proof. induction a as [|x a IH]; simpl; [reflexivity | now rewrite IH]. Qed.

Lemma strip_trimmed s : Trimmed s (strip s).
Proof.
  unfold strip.
  destruct (lstrip_spec s) as (l & El & Al & Bl).
  destruct (rstrip_spec (lstrip s)) as (r & Er & Ar & Br).
  exists l, r. repeat split; try assumption.
  - now rewrite <- Er.
  - now apply rstrip_keeps_start.
Qed.

End PyStrFacts.

(** ** The prompt generators *)

Module Prompts.
Import PyStr PyStrFacts.

Lemma comparison_drugs_str (drug_list : string) :
  comparison_drugs (JStr drug_list) = ok (map strip (split "," drug_list)).
Proof. reflexivity. Qed.

Lemma strip_empty_segment (segs : list string) (i : nat) :
  nth_error segs i = Some EmptyString ->
  nth_error (map strip segs) i = Some EmptyString.
Proof.
  intros H. rewrite nth_error_map, H. reflexivity.
Qed.

(** C5.  On the input of the specification the drug_comparison generator
    works with the names Aspirin, ibuprofen, Tylenol.  On every input
    string the names are the comma-separated segments of the input, in
    their order, each with the white space at its two ends removed: the
    segments joined by commas give the input back and none holds a comma,
    there is one name per segment (one more than there are commas), an
    empty segment stays as an empty name, and the names, joined by a comma
    and a space, are what the prompt description lists. *)
Theorem drug_comparison_names :
  comparison_drugs (JStr "Aspirin, ibuprofen ,Tylenol")
  = ok ["Aspirin"; "ibuprofen"; "Tylenol"]
  /\ forall drug_list : string,
     exists segs : list string,
       join "," segs = drug_list
       /\ Forall (fun seg => has_char "," seg = false) segs
       /\ comparison_drugs (JStr drug_list) = ok (map strip segs)
       /\ Forall (fun seg => Trimmed seg (strip seg)) segs
       /\ List.length (map strip segs) = S (count_char "," drug_list)
       /\ (forall i, nth_error segs i = Some EmptyString ->
                     nth_error (map strip segs) i = Some EmptyString)
       /\ exists message,
            _get_drug_comparison_prompt [("drug_list", JStr drug_list)]
            = ok {| description :=
                      "Comparative analysis prompt for: " ++ join ", " (map strip segs);
                    messages := [message] |}.
Proof.
  split; [reflexivity|].
  intros drug_list. exists (split "," drug_list).
  split; [apply join_split_char|].
  split; [apply split_char_free|].
  split; [apply comparison_drugs_str|].
  split; [apply Forall_forall; intros seg _; apply strip_trimmed|].
  split; [rewrite length_map; apply split_char_length|].
  split; [apply strip_empty_segment|].
  eexists. unfold _get_drug_comparison_prompt.
  cbn [Py.subscript Py.lookup String.eqb Ascii.eqb Bool.eqb res_bind ok].
  rewrite comparison_drugs_str. reflexivity.
Qed.

End Prompts.

(** ** Facts about the Python primitives and the monads *)

Module PyFacts.

Lemma min_int_num (n cap : Z) : Py.min_int (JNum n) cap = ok (JNum (Z.min n cap)).
Proof.
  unfold Py.min_int. cbn [Py.as_int].
  destruct (Z.ltb_spec cap n); unfold ok; do 2 f_equal; lia.
Qed.

Lemma take_nonneg {A} (n : Z) (l : list A) :
  0 <= n -> Py.take n l = firstn (Z.to_nat n) l.
Proof.
  intros H. unfold Py.take. destruct (Z.leb_spec 0 n); [reflexivity | lia].
Qed.

Lemma take_length {A} (n : Z) (l : list A) :
  0 <= n -> Z.of_nat (List.length (Py.take n l)) = Z.min n (Z.of_nat (List.length l)).
Proof.
  intros H. rewrite take_nonneg by exact H. rewrite length_firstn. lia.
Qed.

Lemma take_all {A} (n : Z) (l : list A) :
  Z.of_nat (List.length l) <= n -> Py.take n l = l.
Proof.
  intros H. rewrite take_nonneg by lia. apply firstn_all2. lia.
Qed.

Lemma forallb_firstn {A} (p : A -> bool) : forall (n : nat) (l : list A),
  forallb p l = true -> forallb p (firstn n l) = true.
Proof.
  induction n as [|n IH]; intros [|x l]; simpl; try reflexivity.
  intros H. apply andb_true_iff in H. destruct H as [Hx Hl].
  now rewrite Hx, IH.
Qed.

Lemma forallb_take {A} (p : A -> bool) (n : Z) (l : list A) :
  forallb p l = true -> forallb p (Py.take n l) = true.
Proof.
  intros H. unfold Py.take. destruct (0 <=? n); now apply forallb_firstn.
Qed.

Lemma slice_to_list (l : list json) (n : Z) :
  Py.slice_to (JArr l) (JNum n) = ok (JArr (Py.take n l)).
Proof. reflexivity. Qed.

Lemma res_map_Forall2 {A B} (f : A -> res B) : forall l out,
  res_map f l = ok out <-> Forall2 (fun a b => f a = ok b) l out.
Proof.
  induction l as [|a l IH]; intros out; simpl.
  - split; intros H.
    + injection H as <-. constructor.
    + inversion H. reflexivity.
  - split; intros H.
    + destruct (f a) as [e|b] eqn:Fa; [discriminate|]. simpl in H.
      destruct (res_map f l) as [e|bs] eqn:Fl; [discriminate|].
      injection H as <-. constructor; [exact Fa | now apply IH].
    + inversion H as [|a' b l' bs Fa Fl]; subst.
      apply IH in Fl. unfold ok in *. rewrite Fa. simpl. now rewrite Fl.
Qed.

Lemma res_map_length {A B} (f : A -> res B) l out :
  res_map f l = ok out -> List.length out = List.length l.
Proof.
  intros H. apply res_map_Forall2 in H. symmetry. exact (Forall2_length H).
Qed.

Lemma res_map_total {A B} (f : A -> res B) (p : A -> bool) :
  (forall a, p a = true -> exists b, f a = ok b) ->
  forall l, forallb p l = true -> exists out, res_map f l = ok out.
Proof.
  intros Hf. induction l as [|a l IH]; simpl; intros H.
  - now exists [].
  - apply andb_true_iff in H. destruct H as [Ha Hl].
    destruct (Hf a Ha) as [b Fb]. destruct (IH Hl) as [bs Fbs].
    exists (b :: bs). rewrite Fb. simpl. now rewrite Fbs.
Qed.

(** A projection that is total on dicts maps over a list of dicts. *)
Lemma res_map_dicts (f : json -> res json) (g : dict -> json) :
  (forall d, f (JObj d) = ok (g d)) ->
  forall ds, res_map f (map JObj ds) = ok (map g ds).
Proof.
  intros Hf. induction ds as [|d ds IH]; simpl; [reflexivity|].
  rewrite Hf. simpl. now rewrite IH.
Qed.

Lemma dict_list_inv (v : json) :
  dict_list v = true -> exists ds, v = JArr (map JObj ds).
Proof.
  destruct v as [| | | |l|]; try discriminate. simpl.
  induction l as [|x l IH]; intros H.
  - now exists [].
  - simpl in H. apply andb_true_iff in H. destruct H as [Hx Hl].
    destruct x; try discriminate. destruct (IH Hl) as [ds E].
    injection E as ->. now exists (fields :: ds).
Qed.

Lemma total_results_ok (data : json) :
  meta_ok data = true -> exists total, total_results data = ok total.
Proof.
  destruct data as [| | | | |f]; try discriminate. unfold meta_ok, total_results.
  cbn [Py.get res_bind ok].
  destruct (Py.get_or f "meta" (JObj [])) as [| | | | |m]; try discriminate.
  cbn [Py.get res_bind ok].
  destruct (Py.get_or m "results" (JObj [])) as [| | | | |r]; try discriminate.
  intros _. eexists. reflexivity.
Qed.

(** What [project_page] returns on a well-formed answer. *)
Lemma project_page_ok process key (L : Z) data page (item_ok : json -> bool) :
  (forall item, item_ok item = true -> exists o, process item = ok o) ->
  response_ok item_ok data = true ->
  results_of data = Some page ->
  exists total out,
    project_page process key (JNum L) data
    = ok (JObj [("total_results", total); (key, JArr out)])
    /\ Forall2 (fun item o => process item = ok o) (Py.take L page) out.
Proof.
  intros Hproc Hok Hpage. unfold response_ok in Hok.
  apply andb_true_iff in Hok. destruct Hok as [Hmeta Hitems].
  rewrite Hpage in Hitems.
  destruct (total_results_ok _ Hmeta) as [total Htotal].
  destruct (res_map_total process item_ok Hproc (Py.take L page)
              (forallb_take item_ok L page Hitems)) as [out Hout].
  exists total, out. split; [|now apply res_map_Forall2].
  unfold project_page.
  destruct data as [| | | | |f]; try discriminate.
  cbn [Py.get res_bind ok]. unfold Py.get_or. unfold results_of in Hpage.
  destruct (Py.lookup "results" f) as [[| | | |l|]|]; try discriminate;
    injection Hpage as ->; rewrite slice_to_list; cbn [res_bind ok Py.iter];
    unfold ok in *; rewrite Hout; cbn [res_bind]; rewrite Htotal; reflexivity.
Qed.


End PyFacts.

(** ** The three tools as runs of [fetch_and_project] *)

Module Tools.
Import PyStr PyStrFacts PyFacts.

Section Runs.
Variable upstream : nat -> request -> res json.
Variable py_repr : json -> string.

Lemma search_drug_events_result_eq arguments :
  search_drug_events_result upstream py_repr arguments
  = fetch_and_project upstream FDA_BASE_URL
      (search_drug_events_params py_repr arguments)
      process_event "events" (Py.get_or arguments "limit" (JNum 10)).
Proof. reflexivity. Qed.

Lemma get_drug_label_info_result_eq arguments :
  get_drug_label_info_result upstream py_repr arguments
  = fetch_and_project upstream FDA_DRUG_LABEL_URL
      (get_drug_label_info_params py_repr arguments)
      process_label "labels" (Py.get_or arguments "limit" (JNum 5)).
Proof. reflexivity. Qed.

Lemma search_drug_recalls_result_eq arguments :
  search_drug_recalls_result upstream py_repr arguments
  = fetch_and_project upstream FDA_ENFORCEMENT_URL
      (search_drug_recalls_params py_repr arguments)
      process_recall "recalls" (Py.get_or arguments "limit" (JNum 10)).
Proof. reflexivity. Qed.

(** One request is issued as soon as the parameters are built, whatever
    the upstream answers. *)
Lemma fetch_and_project_sends u built process key limit p w :
  built = ok p ->
  sent (snd (fetch_and_project upstream u built process key limit w))
  = List.app (sent w) [{| url := u; params := p |}].
Proof.
  intros ->. unfold fetch_and_project, bind, lift, http_get, ok.
  destruct (upstream _ _); reflexivity.
Qed.

Lemma fetch_and_project_run u built process key limit p w data :
  built = ok p ->
  upstream (List.length (sent w)) {| url := u; params := p |} = ok data ->
  fetch_and_project upstream u built process key limit w
  = (project_page process key limit data,
     {| sent := List.app (sent w) [{| url := u; params := p |}];
        logged := logged w |}).
Proof.
  intros -> H. unfold fetch_and_project, bind, lift, http_get, ok in *.
  rewrite H. reflexivity.
Qed.


(** The parameters each tool builds. *)
Lemma search_drug_events_params_plain arguments drug_name L :
  Py.lookup "drug_name" arguments = Some drug_name ->
  Py.get_or arguments "limit" (JNum 10) = JNum L ->
  Py.truthy (Py.get_or arguments "date_range" JNull) = false ->
  search_drug_events_params py_repr arguments
  = ok [("search", JStr ("patient.drug.medicinalproduct:" ++ dq
                         ++ fmt py_repr drug_name ++ dq));
        ("limit", JNum (Z.min L 100))].
Proof.
  intros Hn Hl Hd. unfold search_drug_events_params, Py.subscript.
  rewrite Hn, Hl, Hd. cbn [res_bind ok]. rewrite min_int_num. reflexivity.
Qed.

Lemma search_drug_events_params_dated arguments drug_name L date_range :
  Py.lookup "drug_name" arguments = Some drug_name ->
  Py.get_or arguments "limit" (JNum 10) = JNum L ->
  Py.lookup "date_range" arguments = Some (JStr date_range) ->
  date_range <> EmptyString ->
  search_drug_events_params py_repr arguments
  = ok [("search", JStr ("patient.drug.medicinalproduct:" ++ dq
                         ++ fmt py_repr drug_name ++ dq ++ " AND "
                         ++ "receivedate:["
                         ++ join " TO " (split "_to_" date_range) ++ "]"));
        ("limit", JNum (Z.min L 100))].
Proof.
  intros Hn Hl Hd Hne. unfold search_drug_events_params, Py.subscript, Py.get_or.
  rewrite Hn, Hd. fold (Py.get_or arguments "limit" (JNum 10)). rewrite Hl.
  cbn [res_bind ok]. rewrite min_int_num. cbn [res_bind].
  cbn [Py.truthy].
  destruct (String.eqb_spec date_range EmptyString) as [E|_]; [contradiction|].
  cbn [negb str_method res_bind ok Py.set String.eqb Ascii.eqb Bool.eqb].
  rewrite replace_join_split. unfold ok. do 4 f_equal.
  rewrite !append_assoc. reflexivity.
Qed.

Lemma get_drug_label_info_params_eq arguments drug_name L :
  Py.lookup "drug_name" arguments = Some drug_name ->
  Py.get_or arguments "limit" (JNum 5) = JNum L ->
  get_drug_label_info_params py_repr arguments
  = ok [("search", JStr (label_search (fmt py_repr drug_name)));
        ("limit", JNum (Z.min L 50))].
Proof.
  intros Hn Hl. unfold get_drug_label_info_params, Py.subscript.
  rewrite Hn, Hl. cbn [res_bind ok]. rewrite min_int_num. reflexivity.
Qed.

Lemma search_drug_recalls_params_eq arguments drug_name L :
  Py.lookup "drug_name" arguments = Some drug_name ->
  Py.get_or arguments "limit" (JNum 10) = JNum L ->
  search_drug_recalls_params py_repr arguments
  = ok [("search",
         JStr (join " AND "
                 (List.app
                    ["product_description:" ++ dq ++ fmt py_repr drug_name ++ dq]
                    (let classification := Py.get_or arguments "classification" JNull in
                     if Py.truthy classification
                     then ["classification:" ++ dq ++ fmt py_repr classification ++ dq]
                     else []))));
        ("limit", JNum (Z.min L 100))].
Proof.
  intros Hn Hl. unfold search_drug_recalls_params, Py.subscript.
  rewrite Hn, Hl. cbn [res_bind ok]. rewrite min_int_num. reflexivity.
Qed.

(** When a tool builds its result, the call returns it serialised and not
    flagged as an error. *)
Lemma handle_call_tool_returns name (result_of : dict -> M json) arguments w r w' :
  In (name, result_of)
     [("search_drug_events", search_drug_events_result upstream py_repr);
      ("get_drug_label_info", get_drug_label_info_result upstream py_repr);
      ("search_drug_recalls", search_drug_recalls_result upstream py_repr)] ->
  result_of arguments w = (ok r, w') ->
  handle_call_tool upstream py_repr name arguments w
  = (ok {| content := [text_content (Json.dumps r)]; isError := false |}, w').
Proof.
  intros Hin Hrun. simpl in Hin.
  destruct Hin as [Hin|[Hin|[Hin|[]]]]; injection Hin as <- <-;
    unfold handle_call_tool; cbn [String.eqb Ascii.eqb Bool.eqb];
    unfold try_except, _search_drug_events, _get_drug_label_info,
      _search_drug_recalls, bind;
    rewrite Hrun; reflexivity.
Qed.

End Runs.

End Tools.

(** ** The projections on well-formed records *)

Module Projections.
Import PyFacts.

Lemma process_recall_dict (d : dict) :
  process_recall (JObj d)
  = ok (JObj [("recall_number", Py.get_or d "recall_number" unknown);
              ("product_description", Py.get_or d "product_description" unknown);
              ("reason_for_recall", Py.get_or d "reason_for_recall" unknown);
              ("classification", Py.get_or d "classification" unknown);
              ("status", Py.get_or d "status" unknown);
              ("recall_initiation_date", Py.get_or d "recall_initiation_date" unknown);
              ("firm_name", Py.get_or d "recalling_firm" unknown);
              ("distribution_pattern", Py.get_or d "distribution_pattern" unknown)]).
Proof. reflexivity. Qed.

Lemma process_label_dict (d o : dict) :
  Py.get_or d "openfda" (JObj []) = JObj o ->
  process_label (JObj d)
  = ok (JObj [("brand_names", Py.get_or o "brand_name" (JArr []));
              ("generic_names", Py.get_or o "generic_name" (JArr []));
              ("manufacturer", Py.get_or o "manufacturer_name" (JArr []));
              ("substance_names", Py.get_or o "substance_name" (JArr []));
              ("product_type", Py.get_or o "product_type" (JArr []));
              ("route", Py.get_or o "route" (JArr []));
              ("indications_and_usage",
               Py.get_or d "indications_and_usage" not_available);
              ("warnings", Py.get_or d "warnings" not_available);
              ("adverse_reactions", Py.get_or d "adverse_reactions" not_available);
              ("dosage_and_administration",
               Py.get_or d "dosage_and_administration" not_available)]).
Proof.
  intros H. unfold process_label. cbn [Py.get res_bind ok]. rewrite H. reflexivity.
Qed.

Lemma process_event_dict (d p : dict) (rs ds : list dict) :
  Py.get_or d "patient" (JObj []) = JObj p ->
  Py.get_or p "reaction" (JArr []) = JArr (map JObj rs) ->
  Py.get_or p "drug" (JArr []) = JArr (map JObj ds) ->
  process_event (JObj d)
  = ok (JObj [("report_id", Py.get_or d "safetyreportid" unknown);
              ("receive_date", Py.get_or d "receivedate" unknown);
              ("serious", Py.get_or d "serious" unknown);
              ("patient_age", Py.get_or p "patientonsetage" unknown);
              ("patient_sex", Py.get_or p "patientsex" unknown);
              ("reactions", JArr (map reaction_term rs));
              ("drugs", JArr (map drug_entry ds))]).
Proof.
  intros Hp Hr Hd. unfold process_event.
  cbn [Py.get res_bind ok]. rewrite Hp. cbn [Py.get res_bind ok].
  rewrite Hr, Hd. cbn [Py.iter res_bind ok].
  rewrite (res_map_dicts _ reaction_term) by reflexivity. cbn [res_bind ok].
  rewrite (res_map_dicts _ drug_entry) by reflexivity. reflexivity.
Qed.

Lemma event_ok_inv (event : json) :
  event_ok event = true ->
  exists d p rs ds,
    event = JObj d
    /\ Py.get_or d "patient" (JObj []) = JObj p
    /\ Py.get_or p "reaction" (JArr []) = JArr (map JObj rs)
    /\ Py.get_or p "drug" (JArr []) = JArr (map JObj ds).
Proof.
  destruct event as [| | | | |d]; try discriminate. unfold event_ok.
  destruct (Py.get_or d "patient" (JObj [])) as [| | | | |p] eqn:Hp; try discriminate.
  intros H. apply andb_true_iff in H. destruct H as [Hr Hd].
  apply dict_list_inv in Hr, Hd. destruct Hr as [rs Hr]. destruct Hd as [ds Hd].
  now exists d, p, rs, ds.
Qed.

Lemma process_event_total (event : json) :
  event_ok event = true -> exists o, process_event event = ok o.
Proof.
  intros H. destruct (event_ok_inv _ H) as (d & p & rs & ds & -> & Hp & Hr & Hd).
  eexists. now apply process_event_dict with (p := p) (rs := rs) (ds := ds).
Qed.

Lemma process_label_total (label : json) :
  label_ok label = true -> exists o, process_label label = ok o.
Proof.
  destruct label as [| | | | |d]; try discriminate. unfold label_ok.
  destruct (Py.get_or d "openfda" (JObj [])) as [| | | | |o] eqn:Ho; try discriminate.
  intros _. eexists. now apply process_label_dict with (o := o).
Qed.

Lemma process_recall_total (recall : json) :
  is_dict recall = true -> exists o, process_recall recall = ok o.
Proof.
  destruct recall as [| | | | |d]; try discriminate.
  intros _. eexists. apply process_recall_dict.
Qed.

End Projections.

(** ** Limits: what is asked of the upstream API and what is returned *)

Import PyStr PyStrFacts PyFacts Tools Projections.

(** The length of the list a tool returns, from the page it was given. *)
Lemma projected_length process (L : Z) (page out : list json) :
  0 <= L ->
  Forall2 (fun item o => process item = ok o) (Py.take L page) out ->
  Z.of_nat (List.length out) = Z.min L (Z.of_nat (List.length page)).
Proof.
  intros HL H. rewrite <- (Forall2_length H). now apply take_length.
Qed.

(** C8.  For a label query with requested limit [L], the request that
    get_drug_label_info sends carries limit = min(L, 50); the labels
    returned are the projections of the first [L] records of the answer, so
    there are min(L, records in the answer) of them; and when the upstream
    serves the records that match up to the limit it was sent, [available]
    being their number, there are min(L, available, 50) of them. *)
Theorem label_limit_and_truncation :
  forall upstream py_repr arguments drug_name L w data,
    Py.lookup "drug_name" arguments = Some drug_name ->
    Py.get_or arguments "limit" (JNum 5) = JNum L ->
    0 <= L ->
    let req := {| url := FDA_DRUG_LABEL_URL;
                  params := [("search", JStr (label_search (fmt py_repr drug_name)));
                             ("limit", JNum (Z.min L 50))] |} in
    upstream (List.length (sent w)) req = ok data ->
    response_ok label_ok data = true ->
    exists total labels,
      get_drug_label_info_result upstream py_repr arguments w
      = (ok (JObj [("total_results", total); ("labels", JArr labels)]),
         {| sent := List.app (sent w) [req]; logged := logged w |})
      /\ handle_call_tool upstream py_repr "get_drug_label_info" arguments w
         = (ok {| content :=
                    [text_content
                       (Json.dumps (JObj [("total_results", total);
                                          ("labels", JArr labels)]))];
                  isError := false |},
            {| sent := List.app (sent w) [req]; logged := logged w |})
      /\ (forall page, results_of data = Some page ->
            Forall2 (fun record label => process_label record = ok label)
              (Py.take L page) labels
            /\ Z.of_nat (List.length labels) = Z.min L (Z.of_nat (List.length page)))
      /\ (forall available, serves req data available ->
            Z.of_nat (List.length labels) = Z.min L (Z.min available 50)).
Proof.
  intros upstream py_repr arguments drug_name L w data Hn Hl HL req Hup Hok.
  assert (Hpage : exists page, results_of data = Some page).
  { unfold response_ok in Hok. apply andb_true_iff in Hok.
    destruct (results_of data) as [page|]; [now exists page | now destruct Hok]. }
  destruct Hpage as [page Hpage].
  destruct (project_page_ok process_label "labels" L data label_ok
              process_label_total Hok Hpage) as (total & labels & Hrun & Hall).
  exists total, labels.
  assert (Hres : get_drug_label_info_result upstream py_repr arguments w
                 = (ok (JObj [("total_results", total); ("labels", JArr labels)]),
                    {| sent := List.app (sent w) [req]; logged := logged w |})).
  { rewrite get_drug_label_info_result_eq, Hl.
    erewrite fetch_and_project_run;
      [ | now apply get_drug_label_info_params_eq with (drug_name := drug_name) (L := L)
        | exact Hup ].
    now rewrite Hrun. }
  split; [exact Hres|]. split; [|split].
  - apply handle_call_tool_returns
      with (result_of := get_drug_label_info_result upstream py_repr);
      [right; left; reflexivity | exact Hres].
  - intros page' Hpage'. rewrite Hpage in Hpage'. injection Hpage' as <-.
    split; [exact Hall | exact (@projected_length process_label L page labels HL Hall)].
  - intros available (k & page' & Hk & Hpage' & Hlen).
    rewrite Hpage in Hpage'. injection Hpage' as <-.
    simpl in Hk. injection Hk as <-.
    rewrite (@projected_length process_label L page labels HL Hall). lia.
Qed.

(** A run of C8: five labels are asked for, two records match. *)
Lemma label_limit_and_truncation_witness :
  let data := JObj [("meta", JObj [("results", JObj [("total", JNum 2)])]);
                    ("results",
                     JArr [JObj [("openfda", JObj [("brand_name", JArr [JStr "Bayer"])])];
                           JObj [("warnings", JArr [JStr "Keep out of reach"])]])] in
  exists total labels,
    get_drug_label_info_result (constant_upstream data) no_repr
      [("drug_name", JStr "aspirin")] fresh
    = (ok (JObj [("total_results", total); ("labels", JArr labels)]),
       {| sent := [{| url := FDA_DRUG_LABEL_URL;
                      params := [("search", JStr (label_search "aspirin"));
                                 ("limit", JNum 5)] |}];
          logged := [] |})
    /\ Z.of_nat (List.length labels) = 2.
Proof.
  intros data.
  destruct (label_limit_and_truncation (constant_upstream data) no_repr
              [("drug_name", JStr "aspirin")] (drug_name := JStr "aspirin") (L := 5)
              fresh (data := data) eq_refl eq_refl ltac:(lia) eq_refl eq_refl)
    as (total & labels & Hrun & _ & _ & Hserved).
  exists total, labels. split; [exact Hrun|].
  apply (Hserved 2). exists 5, [JObj [("openfda", JObj [("brand_name", JArr [JStr "Bayer"])])];
                                JObj [("warnings", JArr [JStr "Keep out of reach"])]].
  repeat split.
Defined.

(** C2, corrected.  When search_drug_recalls is called with limit 200, the
    request it sends carries limit 100, and the recalls returned are the
    projections of the first 200 records of the answer: the list is cut at
    the 200 that were asked for, not at 100, so there are min(200, records
    in the answer) of them.  The list holds at most 100 recalls when the
    upstream returns no more records than the limit it was sent. *)
Theorem recalls_limit_200 :
  forall upstream py_repr arguments drug_name w data,
    Py.lookup "drug_name" arguments = Some drug_name ->
    Py.lookup "limit" arguments = Some (JNum 200) ->
    let classification := Py.get_or arguments "classification" JNull in
    let search :=
      join " AND "
        (List.app
           ["product_description:" ++ dq ++ fmt py_repr drug_name ++ dq]
           (if Py.truthy classification
            then ["classification:" ++ dq ++ fmt py_repr classification ++ dq]
            else [])) in
    let req := {| url := FDA_ENFORCEMENT_URL;
                  params := [("search", JStr search); ("limit", JNum 100)] |} in
    upstream (List.length (sent w)) req = ok data ->
    response_ok is_dict data = true ->
    exists total recalls,
      search_drug_recalls_result upstream py_repr arguments w
      = (ok (JObj [("total_results", total); ("recalls", JArr recalls)]),
         {| sent := List.app (sent w) [req]; logged := logged w |})
      /\ handle_call_tool upstream py_repr "search_drug_recalls" arguments w
         = (ok {| content :=
                    [text_content
                       (Json.dumps (JObj [("total_results", total);
                                          ("recalls", JArr recalls)]))];
                  isError := false |},
            {| sent := List.app (sent w) [req]; logged := logged w |})
      /\ Py.lookup "limit" (params req) = Some (JNum 100)
      /\ (forall page, results_of data = Some page ->
            Forall2 (fun record recall => process_recall record = ok recall)
              (Py.take 200 page) recalls
            /\ Z.of_nat (List.length recalls) = Z.min 200 (Z.of_nat (List.length page))
            /\ (Z.of_nat (List.length recalls) <= 100
                <-> Z.of_nat (List.length page) <= 100))
      /\ (within_limit req data -> Z.of_nat (List.length recalls) <= 100).
Proof.
  intros upstream py_repr arguments drug_name w data Hn Hl classification search req
    Hup Hok.
  assert (Hpage : exists page, results_of data = Some page).
  { unfold response_ok in Hok. apply andb_true_iff in Hok.
    destruct (results_of data) as [page|]; [now exists page | now destruct Hok]. }
  destruct Hpage as [page Hpage].
  assert (Hl' : Py.get_or arguments "limit" (JNum 10) = JNum 200)
    by (unfold Py.get_or; now rewrite Hl).
  destruct (project_page_ok process_recall "recalls" 200 data is_dict
              process_recall_total Hok Hpage) as (total & recalls & Hrun & Hall).
  exists total, recalls.
  assert (Hres : search_drug_recalls_result upstream py_repr arguments w
                 = (ok (JObj [("total_results", total); ("recalls", JArr recalls)]),
                    {| sent := List.app (sent w) [req]; logged := logged w |})).
  { rewrite search_drug_recalls_result_eq, Hl'.
    erewrite fetch_and_project_run;
      [ | now apply search_drug_recalls_params_eq with (drug_name := drug_name) (L := 200)
        | exact Hup ].
    now rewrite Hrun. }
  assert (Hlength : Z.of_nat (List.length recalls)
                    = Z.min 200 (Z.of_nat (List.length page)))
    by exact (@projected_length process_recall 200 page recalls ltac:(lia) Hall).
  split; [exact Hres|]. split; [|split; [reflexivity|split]].
  - apply handle_call_tool_returns
      with (result_of := search_drug_recalls_result upstream py_repr);
      [right; right; left; reflexivity | exact Hres].
  - intros page' Hpage'. rewrite Hpage in Hpage'. injection Hpage' as <-.
    split; [exact Hall|]. split; [exact Hlength | lia].
  - intros (k & page' & Hk & Hpage' & Hlen).
    rewrite Hpage in Hpage'. injection Hpage' as <-.
    simpl in Hk. injection Hk as <-. lia.
Qed.

(** A run of C2: 200 recalls are asked for and the upstream, asked for 100,
    has three. *)
Lemma recalls_limit_200_witness :
  let page := [JObj [("recall_number", JStr "D-0001-2024")];
               JObj [("status", JStr "Ongoing")];
               JObj []] in
  let data := JObj [("results", JArr page)] in
  exists total recalls,
    search_drug_recalls_result (constant_upstream data) no_repr
      [("drug_name", JStr "aspirin"); ("limit", JNum 200)] fresh
    = (ok (JObj [("total_results", total); ("recalls", JArr recalls)]),
       {| sent := [{| url := FDA_ENFORCEMENT_URL;
                      params := [("search", JStr ("product_description:" ++ dq
                                                   ++ "aspirin" ++ dq));
                                 ("limit", JNum 100)] |}];
          logged := [] |})
    /\ Z.of_nat (List.length recalls) = 3.
Proof.
  intros page data.
  destruct (recalls_limit_200 (constant_upstream data) no_repr
              [("drug_name", JStr "aspirin"); ("limit", JNum 200)]
              (drug_name := JStr "aspirin") fresh (data := data)
              eq_refl eq_refl eq_refl eq_refl)
    as (total & recalls & Hrun & _ & _ & Hpage & _).
  exists total, recalls. split; [exact Hrun|].
  destruct (Hpage page eq_refl) as (_ & Hlen & _). exact Hlen.
Defined.

(** The run that refutes the bound of C2: the call asks for 200 recalls,
    the request carries limit 100, the upstream answers with 103 records,
    and the list returned holds all 103 of them. *)
Lemma recalls_limit_200_counterexample :
  let blank :=
    JObj [("recall_number", JStr "Unknown");
          ("product_description", JStr "Unknown");
          ("reason_for_recall", JStr "Unknown");
          ("classification", JStr "Unknown");
          ("status", JStr "Unknown");
          ("recall_initiation_date", JStr "Unknown");
          ("firm_name", JStr "Unknown");
          ("distribution_pattern", JStr "Unknown")] in
  let data := JObj [("results", JArr (List.repeat (JObj []) 103))] in
  let run :=
    search_drug_recalls_result (constant_upstream data) no_repr
      [("drug_name", JStr "aspirin"); ("limit", JNum 200)] fresh in
  fst run
  = ok (JObj [("total_results", JNum 0); ("recalls", JArr (List.repeat blank 103))])
  /\ List.map (fun req => Py.lookup "limit" (params req)) (sent (snd run))
     = [Some (JNum 100)]
  /\ List.length (List.repeat blank 103) = 103%nat
  /\ (100 < 103)%nat.
Proof.
  intros blank data run. split; [vm_compute; reflexivity|].
  split; [vm_compute; reflexivity|]. split; [reflexivity | lia].
Qed.

(** ** Adverse events: the list returned and its elements *)

Lemma search_drug_events_params_ok py_repr arguments drug_name L :
  Py.lookup "drug_name" arguments = Some drug_name ->
  Py.get_or arguments "limit" (JNum 10) = JNum L ->
  optional_str (Py.get_or arguments "date_range" JNull) = true ->
  exists search,
    search_drug_events_params py_repr arguments
    = ok [("search", JStr search); ("limit", JNum (Z.min L 100))].
Proof.
  intros Hn Hl Hd.
  destruct (Py.truthy (Py.get_or arguments "date_range" JNull)) eqn:T.
  - unfold Py.get_or in Hd, T.
    destruct (Py.lookup "date_range" arguments) as [[| | |dr| |]|] eqn:E;
      try discriminate.
    eexists. apply search_drug_events_params_dated with (date_range := dr);
      try eassumption.
    intros ->. discriminate.
  - eexists.
    apply search_drug_events_params_plain with (drug_name := drug_name); assumption.
Qed.

Lemma get_or_lookup (d : dict) (k : string) (default : json) :
  Py.get_or d k default
  = match Py.lookup k d with Some v => v | None => default end.
Proof. reflexivity. Qed.

Lemma map_JObj_nil (l : list dict) : JArr [] = JArr (map JObj l) -> l = [].
Proof. destruct l; [reflexivity | discriminate]. Qed.

(** On a well-formed event the projection has the seven fields, with the
    defaults of [projected_event]. *)
Lemma process_event_projected (event o : json) :
  event_ok event = true ->
  process_event event = ok o ->
  exists d, event = JObj d /\ projected_event d o.
Proof.
  intros Hok Hrun.
  destruct (event_ok_inv _ Hok) as (d & p & rs & ds & -> & Hp & Hr & Hd).
  rewrite (@process_event_dict d p rs ds Hp Hr Hd) in Hrun. injection Hrun as <-.
  exists d. split; [reflexivity|]. split; [reflexivity|].
  rewrite get_or_lookup in Hp, Hr, Hd.
  assert (Hpatient : forall k,
            match Py.lookup "patient" d with
            | Some p0 => field k p0
            | None => None
            end = Py.lookup k p).
  { intros k. destruct (Py.lookup "patient" d) as [v|].
    - now subst v.
    - now injection Hp as <-. }
  intros f. unfold event_source.
  destruct f; cbn [event_key is_sequence field Py.lookup String.eqb Ascii.eqb Bool.eqb];
    rewrite ?Hpatient, ?get_or_lookup.
  - destruct (Py.lookup "safetyreportid" d); [intros _|]; reflexivity.
  - destruct (Py.lookup "receivedate" d); [intros _|]; reflexivity.
  - destruct (Py.lookup "serious" d); [intros _|]; reflexivity.
  - destruct (Py.lookup "patientonsetage" p); [intros _|]; reflexivity.
  - destruct (Py.lookup "patientsex" p); [intros _|]; reflexivity.
  - destruct (Py.lookup "reaction" p); [discriminate|].
    now rewrite (map_JObj_nil _ Hr).
  - destruct (Py.lookup "drug" p); [discriminate|].
    now rewrite (map_JObj_nil _ Hd).
Qed.

Lemma Forall2_refine {A B} (p : A -> bool) (P Q : A -> B -> Prop) :
  (forall a b, p a = true -> P a b -> Q a b) ->
  forall l out, forallb p l = true -> Forall2 P l out -> Forall2 Q l out.
Proof.
  intros H. induction l as [|a l IH]; intros out Hp HP; inversion HP; subst.
  - constructor.
  - simpl in Hp. apply andb_true_iff in Hp. destruct Hp as [Ha Hl].
    constructor; [now apply H | now apply IH].
Qed.

(** C1, as amended.  For an event query with drug name, limit [L] (at
    least 0, so every valid limit from 1 to 1000) and an optional date
    range, search_drug_events sends one request with limit = min(L, 100).
    On a well-formed answer it returns the projections of the first [L]
    records; when the upstream serves the matching records up to the limit
    it was sent, [available] being their number, the list has
    min(L, available, 100) elements.  Every element has the seven fields of
    a ProjectedEvent: the text Unknown where a scalar source is absent, the
    upstream value where it is present, and the empty list (not Unknown)
    where the reaction or the drug list is absent. *)
Theorem events_length_and_fields :
  forall upstream py_repr arguments drug_name L w,
    Py.lookup "drug_name" arguments = Some drug_name ->
    Py.get_or arguments "limit" (JNum 10) = JNum L ->
    0 <= L ->
    optional_str (Py.get_or arguments "date_range" JNull) = true ->
    exists search,
      let req := {| url := FDA_BASE_URL;
                    params := [("search", JStr search);
                               ("limit", JNum (Z.min L 100))] |} in
      sent (snd (search_drug_events_result upstream py_repr arguments w))
      = List.app (sent w) [req]
      /\ forall data,
           upstream (List.length (sent w)) req = ok data ->
           response_ok event_ok data = true ->
           exists total events,
             search_drug_events_result upstream py_repr arguments w
             = (ok (JObj [("total_results", total); ("events", JArr events)]),
                {| sent := List.app (sent w) [req]; logged := logged w |})
             /\ handle_call_tool upstream py_repr "search_drug_events" arguments w
                = (ok {| content :=
                           [text_content
                              (Json.dumps (JObj [("total_results", total);
                                                 ("events", JArr events)]))];
                         isError := false |},
                   {| sent := List.app (sent w) [req]; logged := logged w |})
             /\ (forall available, serves req data available ->
                   Z.of_nat (List.length events) = Z.min L (Z.min available 100))
             /\ (forall page, results_of data = Some page ->
                   Forall2 (fun event o =>
                              exists d, event = JObj d /\ projected_event d o)
                     (Py.take L page) events).
Proof.
  intros upstream py_repr arguments drug_name L w Hn Hl HL Hd.
  destruct (search_drug_events_params_ok py_repr arguments Hn Hl Hd) as [search Hparams].
  exists search. intros req. split.
  - rewrite search_drug_events_result_eq.
    now apply fetch_and_project_sends.
  - intros data Hup Hok.
    assert (Hpage : exists page, results_of data = Some page).
    { unfold response_ok in Hok. apply andb_true_iff in Hok.
      destruct (results_of data) as [page|]; [now exists page | now destruct Hok]. }
    destruct Hpage as [page Hpage].
    destruct (project_page_ok process_event "events" L data event_ok
                process_event_total Hok Hpage) as (total & events & Hrun & Hall).
    exists total, events.
    assert (Hres : search_drug_events_result upstream py_repr arguments w
                   = (ok (JObj [("total_results", total); ("events", JArr events)]),
                      {| sent := List.app (sent w) [req]; logged := logged w |})).
    { rewrite search_drug_events_result_eq, Hl.
      erewrite fetch_and_project_run; [ | exact Hparams | exact Hup ].
      now rewrite Hrun. }
    split; [exact Hres|]. split; [|split].
    + apply handle_call_tool_returns
        with (result_of := search_drug_events_result upstream py_repr);
        [left; reflexivity | exact Hres].
    + intros available (k & page' & Hk & Hpage' & Hlen).
      rewrite Hpage in Hpage'. injection Hpage' as <-.
      simpl in Hk. injection Hk as <-.
      rewrite (@projected_length process_event L page events HL Hall). lia.
    + intros page' Hpage'. rewrite Hpage in Hpage'. injection Hpage' as <-.
      apply Forall2_refine
        with (p := event_ok) (P := fun event o => process_event event = ok o).
      * intros event o. apply process_event_projected.
      * apply forallb_take. unfold response_ok in Hok.
        apply andb_true_iff in Hok. destruct Hok as [_ Hok].
        now rewrite Hpage in Hok.
      * exact Hall.
Qed.

(** A run of C1: three events are asked for, two match. *)
Lemma events_length_and_fields_witness :
  let page := [JObj [("safetyreportid", JStr "10003");
                     ("patient", JObj [("patientsex", JStr "2");
                                       ("reaction",
                                        JArr [JObj [("reactionmeddrapt", JStr "Nausea")];
                                              JObj []])])];
               JObj [("receivedate", JStr "20240105")]] in
  let data := JObj [("meta", JObj [("results", JObj [("total", JNum 2)])]);
                    ("results", JArr page)] in
  let arguments := [("drug_name", JStr "aspirin"); ("limit", JNum 3);
                    ("date_range", JStr "20240101_to_20240131")] in
  exists total events,
    fst (search_drug_events_result (constant_upstream data) no_repr arguments fresh)
    = ok (JObj [("total_results", total); ("events", JArr events)])
    /\ Z.of_nat (List.length events) = 2
    /\ Forall2 (fun event o => exists d, event = JObj d /\ projected_event d o)
         page events.
Proof.
  intros page data arguments.
  destruct (events_length_and_fields (constant_upstream data) no_repr arguments
              (drug_name := JStr "aspirin") (L := 3) fresh
              eq_refl eq_refl ltac:(lia) eq_refl)
    as (search & _ & Hdata).
  destruct (Hdata data eq_refl eq_refl) as (total & events & Hrun & _ & Hlen & Hall).
  exists total, events. split; [now rewrite Hrun | split].
  - apply (Hlen 2). exists (Z.min 3 100), page. repeat split.
  - exact (Hall page eq_refl).
Defined.

(** C1 as stated fails on an event that has no patient data: its reaction
    list is absent upstream, and the projection holds the empty list where
    the statement puts the text Unknown. *)
Lemma events_unknown_counterexample :
  let event := [("safetyreportid", JStr "10003")] in
  let data := JObj [("results", JArr [JObj event])] in
  let o := JObj [("report_id", JStr "10003");
                 ("receive_date", JStr "Unknown");
                 ("serious", JStr "Unknown");
                 ("patient_age", JStr "Unknown");
                 ("patient_sex", JStr "Unknown");
                 ("reactions", JArr []);
                 ("drugs", JArr [])] in
  fst (search_drug_events_result (constant_upstream data) no_repr
         [("drug_name", JStr "aspirin"); ("limit", JNum 5)] fresh)
  = ok (JObj [("total_results", JNum 0); ("events", JArr [o])])
  /\ event_source F_reactions event = None
  /\ field "reactions" o = Some (JArr [])
  /\ ~ unknown_where_absent event o.
Proof.
  intros event data o. split; [reflexivity|].
  split; [reflexivity|]. split; [reflexivity|].
  intros H. specialize (H F_reactions eq_refl). discriminate H.
Qed.

(** ** The date range of an event query *)

Lemma append_nil_r (s : string) : s ++ EmptyString = s.
Proof. induction s as [|c s IH]; simpl; [reflexivity | now rewrite IH]. Qed.

Lemma contains_at_end (pre needle : string) : Contains needle (pre ++ needle).
Proof. exists pre, EmptyString. now rewrite append_nil_r. Qed.

(** C4.  When search_drug_events is given a date range, the search string
    of the request it sends is the drug clause, the word AND, and the
    clause receivedate:[...] whose content is the date range split on the
    separator _to_ and joined again by TO between spaces.  For the date
    range 20240101_to_20240131 the clause is
    receivedate:[20240101 TO 20240131]. *)
Theorem date_range_clause :
  forall upstream py_repr arguments drug_name L date_range w,
    Py.lookup "drug_name" arguments = Some drug_name ->
    Py.get_or arguments "limit" (JNum 10) = JNum L ->
    Py.lookup "date_range" arguments = Some (JStr date_range) ->
    date_range <> EmptyString ->
    let clause := "receivedate:[" ++ join " TO " (split "_to_" date_range) ++ "]" in
    let search := "patient.drug.medicinalproduct:" ++ dq ++ fmt py_repr drug_name ++ dq
                  ++ " AND " ++ clause in
    sent (snd (search_drug_events_result upstream py_repr arguments w))
    = List.app (sent w)
        [{| url := FDA_BASE_URL;
            params := [("search", JStr search); ("limit", JNum (Z.min L 100))] |}]
    /\ Contains clause search
    /\ (date_range = "20240101_to_20240131" ->
        clause = "receivedate:[20240101 TO 20240131]").
Proof.
  intros upstream py_repr arguments drug_name L date_range w Hn Hl Hd Hne clause search.
  split; [|split].
  - rewrite search_drug_events_result_eq.
    apply fetch_and_project_sends.
    now apply search_drug_events_params_dated.
  - unfold search.
    rewrite <- (append_assoc "patient.drug.medicinalproduct:" dq).
    rewrite <- (append_assoc _ (fmt py_repr drug_name)).
    rewrite <- (append_assoc _ dq).
    rewrite <- (append_assoc _ " AND ").
    apply contains_at_end.
  - intros ->. reflexivity.
Qed.

(** A run of C4 on the date range of the specification. *)
Lemma date_range_clause_witness :
  let arguments := [("drug_name", JStr "aspirin");
                    ("date_range", JStr "20240101_to_20240131")] in
  sent (snd (search_drug_events_result (constant_upstream (JObj [])) no_repr
               arguments fresh))
  = [{| url := FDA_BASE_URL;
        params := [("search",
                    JStr ("patient.drug.medicinalproduct:" ++ dq ++ "aspirin" ++ dq
                          ++ " AND receivedate:[20240101 TO 20240131]"));
                   ("limit", JNum 10)] |}].
Proof.
  intros arguments.
  exact (proj1 (date_range_clause (constant_upstream (JObj [])) no_repr arguments
                  (drug_name := JStr "aspirin") (L := 10)
                  (date_range := "20240101_to_20240131") fresh
                  eq_refl eq_refl eq_refl ltac:(discriminate))).
Defined.

(** ** Labels: the defaults of absent fields *)


Lemma Forall2_impl {A B} (P Q : A -> B -> Prop) :
  (forall a b, P a b -> Q a b) ->
  forall l out, Forall2 P l out -> Forall2 Q l out.
Proof.
  intros H l out HP. induction HP; constructor; auto.
Qed.



(** ** Events: sequences default to the empty list *)





(** ** The popular-labels resource *)

Section Popular.
Variable upstream : nat -> request -> res json.

(** One turn of the loop: one request, and the labels grow by what the
    answer contributes; a failure leaves them as they were and a warning
    in the log. *)
Lemma popular_step (drug : string) (all_labels : list json) (w : world) :
  let answer := upstream (List.length (sent w)) (popular_request drug) in
  try_except
    (bind (fetch_popular upstream drug) (fun found => ret (List.app all_labels found)))
    (fun e =>
       bind (log WARNING ("Error fetching data for " ++ drug ++ ": " ++ exn_str e))
            (fun _ => ret all_labels)) w
  = (ok (List.app all_labels (labels_of answer)),
     {| sent := List.app (sent w) [popular_request drug];
        logged := List.app (logged w) (warning_of drug answer) |}).
Proof.
  intros answer. subst answer. unfold labels_of, warning_of, popular_outcome.
  unfold try_except, fetch_popular, http_get. unfold bind, lift, ret, log.
  fold (popular_request drug).
  destruct (upstream (List.length (sent w)) (popular_request drug)) as [e|data];
    cbn [res_bind sent logged].
  - now rewrite app_nil_r.
  - destruct (Py.get data "results" JNull) as [e|results]; cbn [res_bind sent logged].
    + now rewrite app_nil_r.
    + destruct (Py.truthy results).
      * destruct (Py.iter results) as [e|found]; cbn [sent logged];
          now rewrite !app_nil_r.
      * cbn. now rewrite !app_nil_r.
Qed.

Lemma popular_loop_run : forall (drugs : list string) (all_labels : list json) (w : world),
  let answers := popular_answers upstream (List.length (sent w)) drugs in
  popular_loop upstream drugs all_labels w
  = (ok (List.app all_labels (List.concat (map labels_of answers))),
     {| sent := List.app (sent w) (map popular_request drugs);
        logged := List.app (logged w) (warnings_of drugs answers) |}).
Proof.
  induction drugs as [|drug rest IH]; intros all_labels w; cbn zeta.
  - cbn. rewrite !app_nil_r. now destruct w.
  - cbn [popular_loop]. unfold bind at 1. rewrite popular_step.
    unfold ok. rewrite IH. unfold ok.
    cbn [sent logged popular_answers map List.concat warnings_of].
    rewrite length_app, Nat.add_1_r. cbn [List.length].
    rewrite <- !app_assoc. reflexivity.
Qed.

End Popular.

Lemma popular_run (upstream : nat -> request -> res json) (w : world) :
  let n := List.length (sent w) in
  let a1 := upstream n (popular_request "aspirin") in
  let a2 := upstream (S n) (popular_request "ibuprofen") in
  let a3 := upstream (S (S n)) (popular_request "acetaminophen") in
  _get_popular_drug_labels upstream w
  = (ok (JObj [("results",
                JArr (List.app (labels_of a1)
                        (List.app (labels_of a2) (labels_of a3))))]),
     {| sent := List.app (sent w)
                  [popular_request "aspirin"; popular_request "ibuprofen";
                   popular_request "acetaminophen"];
        logged := List.app (logged w)
                    (List.app (warning_of "aspirin" a1)
                       (List.app (warning_of "ibuprofen" a2)
                          (warning_of "acetaminophen" a3))) |}).
Proof.
  intros n a1 a2 a3. unfold _get_popular_drug_labels.
  change (Py.take 3 popular_drugs) with ["aspirin"; "ibuprofen"; "acetaminophen"].
  unfold bind. rewrite popular_loop_run. unfold ok, ret.
  cbn [popular_answers map List.concat warnings_of List.app].
  now rewrite !app_nil_r.
Qed.



(** ** The boundaries: resource reads and tool calls *)

(** The [except] block of a resource read: it logs the failure, and the
    result it then builds is rejected, so the read raises. *)
Lemma read_handler_raises (validation_message : list content_object -> string)
    (uri : uri_arg) (e : exn) (w : world) :
  bind (log ERROR ("Error reading resource " ++ uri_str uri ++ ": " ++ exn_str e))
    (fun _ => lift (new_ReadResourceResult validation_message
                      [OfTextContent (text_content ("Error reading resource: " ++ exn_str e))]))
    w
  = (inl (ValidationError
            (validation_message
               [OfTextContent (text_content ("Error reading resource: " ++ exn_str e))])),
     {| sent := sent w;
        logged := List.app (logged w)
                    [(ERROR, "Error reading resource " ++ uri_str uri ++ ": " ++ exn_str e)] |}).
Proof. reflexivity. Qed.

(** A resource read, whatever its fetch does: the exception caught by the
    [except] block is the one of the fetch, or the one of the result built
    from the fetched data. *)
Lemma read_run (validation_message : list content_object -> string)
    (uri : uri_arg) (fetch : M json) (w : world) :
  let caught :=
    match fst (fetch w) with
    | inl e => e
    | inr data =>
        ValidationError
          (validation_message [OfTextContent (text_content (Json.dumps data))])
    end in
  try_except
    (bind fetch
       (fun data =>
          lift (new_ReadResourceResult validation_message
                  [OfTextContent (text_content (Json.dumps data))])))
    (fun e =>
       bind (log ERROR ("Error reading resource " ++ uri_str uri ++ ": " ++ exn_str e))
         (fun _ => lift (new_ReadResourceResult validation_message
                           [OfTextContent
                              (text_content ("Error reading resource: " ++ exn_str e))])))
    w
  = (inl (ValidationError
            (validation_message
               [OfTextContent
                  (text_content ("Error reading resource: " ++ exn_str caught))])),
     {| sent := sent (snd (fetch w));
        logged := List.app (logged (snd (fetch w)))
                    [(ERROR,
                      "Error reading resource " ++ uri_str uri ++ ": "
                      ++ exn_str caught)] |}).
Proof.
  intros caught. unfold caught, try_except, bind.
  destruct (fetch w) as [[e|data] w1]; reflexivity.
Qed.

(** A fetch that is one GET. *)
Lemma http_get_run (upstream : nat -> request -> res json) (u : string) (p : dict)
    (w : world) :
  http_get upstream u p w
  = (upstream (List.length (sent w)) {| url := u; params := p |},
     {| sent := List.app (sent w) [{| url := u; params := p |}]; logged := logged w |}).
Proof. reflexivity. Qed.

(** The fetch a resource read performs for its URI. *)
Lemma read_unfold (upstream : nat -> request -> res json)
    (validation_message : list content_object -> string)
    (today : Z) (strftime_Ymd : Z -> string) (uri : uri_arg) (w : world) :
  handle_read_resource upstream today strftime_Ymd validation_message uri w
  = try_except
      (bind
         (if uri_eq uri "fda://drug-events/recent"
          then _get_recent_drug_events upstream today strftime_Ymd
          else if uri_eq uri "fda://drug-labels/popular"
               then _get_popular_drug_labels upstream
               else if uri_eq uri "fda://recalls/recent"
                    then _get_recent_recalls upstream
                    else raise (ValueError ("Unknown resource URI: " ++ uri_str uri)))
         (fun data =>
            lift (new_ReadResourceResult validation_message
                    [OfTextContent (text_content (Json.dumps data))])))
      (fun e =>
         bind (log ERROR ("Error reading resource " ++ uri_str uri ++ ": " ++ exn_str e))
           (fun _ => lift (new_ReadResourceResult validation_message
                             [OfTextContent
                                (text_content ("Error reading resource: " ++ exn_str e))])))
      w.
Proof. reflexivity. Qed.

(** C9, as the code runs.  A resource read never returns a payload.  The
    result is built from a TextContent, which the result type rejects: on a
    successful fetch the construction raises inside the try block, the
    except block catches and logs that failure, builds a result the same
    way, and the second failure leaves the handler.  So for every URI and
    every upstream the read raises a ValidationError, after logging one
    error.  Read with the str of a served URI, the two single-request
    resources fetch their data first, and the pretty-printed JSON is only
    the input of the failed construction; read with the URL object the
    dispatcher passes, no URI is recognised and nothing is requested. *)
Theorem resource_read_raises :
  forall upstream validation_message today strftime_Ymd uri w,
    let read := handle_read_resource upstream today strftime_Ymd validation_message uri w in
    let rejected (payload : string) :=
      ValidationError (validation_message [OfTextContent (text_content payload)]) in
    let failed (e : exn) (w' : world) :=
      (inl (rejected ("Error reading resource: " ++ exn_str e)),
       {| sent := sent w';
          logged := List.app (logged w')
                      [(ERROR,
                        "Error reading resource " ++ uri_str uri ++ ": " ++ exn_str e)] |}) in
    let fetched (req : request) :=
      let w' := {| sent := List.app (sent w) [req]; logged := logged w |} in
      match upstream (List.length (sent w)) req with
      | inr data => read = failed (rejected (Json.dumps data)) w'
      | inl e => read = failed e w'
      end in
    (exists e w', read = failed e w')
    /\ (forall result w', read <> (ok result, w'))
    /\ (uri = UriStr "fda://drug-events/recent" ->
        fetched
          {| url := FDA_BASE_URL;
             params :=
               [("search",
                 JStr ("receivedate:["
                       ++ replace "_to_" " TO "
                            (strftime_Ymd (today - 30) ++ "_to_" ++ strftime_Ymd today)
                       ++ "]"));
                ("limit", JNum 20)] |})
    /\ (uri = UriStr "fda://recalls/recent" ->
        fetched
          {| url := FDA_ENFORCEMENT_URL;
             params := [("search", JStr "product_type:Drugs");
                        ("limit", JNum 20);
                        ("sort", JStr "recall_initiation_date:desc")] |})
    /\ (uri = UriStr "fda://drug-labels/popular" ->
        exists labels w',
          _get_popular_drug_labels upstream w
          = (ok (JObj [("results", JArr labels)]), w')
          /\ read = failed (rejected (Json.dumps (JObj [("results", JArr labels)]))) w')
    /\ (forall s, uri = UriStr s -> known_resource s = false ->
        read = failed (ValueError ("Unknown resource URI: " ++ s)) w)
    /\ (forall s, uri = AnyUrl s ->
        read = failed (ValueError ("Unknown resource URI: " ++ s)) w).
Proof.
  intros upstream validation_message today strftime_Ymd uri w read rejected failed fetched.
  assert (Hall : exists e w', read = failed e w').
  { unfold read. rewrite read_unfold, read_run. do 2 eexists. reflexivity. }
  split; [exact Hall|].
  split.
  { intros result w' H. destruct Hall as (e & w1 & He). rewrite He in H.
    unfold failed in H. discriminate H. }
  split.
  { intros ->. unfold fetched, read. rewrite read_unfold, read_run.
    cbn [uri_eq String.eqb Ascii.eqb Bool.eqb]. unfold _get_recent_drug_events.
    rewrite http_get_run. cbn [fst snd sent logged].
    destruct (upstream _ _); reflexivity. }
  split.
  { intros ->. unfold fetched, read. rewrite read_unfold, read_run.
    cbn [uri_eq String.eqb Ascii.eqb Bool.eqb]. unfold _get_recent_recalls.
    rewrite http_get_run. cbn [fst snd sent logged].
    destruct (upstream _ _); reflexivity. }
  split.
  { intros ->. do 2 eexists. split; [apply popular_run|].
    unfold read. rewrite read_unfold, read_run.
    cbn [uri_eq String.eqb Ascii.eqb Bool.eqb]. rewrite popular_run. reflexivity. }
  split.
  { intros s -> K. unfold known_resource in K.
    apply orb_false_iff in K. destruct K as [K K3].
    apply orb_false_iff in K. destruct K as [K1 K2].
    unfold read. rewrite read_unfold, read_run. cbn [uri_eq uri_str].
    rewrite K1, K2, K3. reflexivity. }
  intros s ->. unfold read. rewrite read_unfold, read_run. reflexivity.
Qed.

(** The failing read of C9: the upstream answers the recent-recalls request
    with an empty page, and the read raises instead of returning the page. *)
Example resource_read_failing_input :
  let data := JObj [("results", JArr [])] in
  let message (objects : list content_object) :=
    match objects with
    | [OfTextContent c] => "rejected: " ++ text c
    | _ => EmptyString
    end in
  handle_read_resource (constant_upstream data) 0 (fun _ => EmptyString) message
    (UriStr "fda://recalls/recent") fresh
  = (inl (ValidationError
            ("rejected: Error reading resource: rejected: " ++ Json.dumps data)),
     {| sent := [{| url := FDA_ENFORCEMENT_URL;
                    params := [("search", JStr "product_type:Drugs");
                               ("limit", JNum 20);
                               ("sort", JStr "recall_initiation_date:desc")] |}];
        logged := [(ERROR,
                    "Error reading resource fda://recalls/recent: rejected: "
                    ++ Json.dumps data)] |}).
Proof. vm_compute. reflexivity. Qed.

Lemma try_except_total {A} (c : M A) (h : exn -> M A) (w : world) :
  (forall e w1, exists a w2, h e w1 = (ok a, w2)) ->
  exists a w', try_except c h w = (ok a, w').
Proof.
  intros Hh. unfold try_except. destruct (c w) as [[e|a] w1].
  - apply Hh.
  - now exists a, w1.
Qed.

(** C6.  For a name that is none of the three tools, the call issues no
    request and returns a result flagged as an error whose single text is
    Error: Unknown tool: followed by the name, so it contains the words
    Unknown tool.  For every name and every argument dict the call returns
    a result and raises nothing; when the handler of a known tool raises,
    the result is flagged as an error and carries the message of the
    exception, which is also logged. *)
Theorem unknown_tool_error :
  forall upstream py_repr name arguments w,
    let call := handle_call_tool upstream py_repr name arguments w in
    (known_tool name = false ->
       call
       = (ok {| content := [text_content ("Error: Unknown tool: " ++ name)];
                isError := true |},
          {| sent := sent w;
             logged := List.app (logged w)
                         [(ERROR, "Error calling tool " ++ name
                                  ++ ": Unknown tool: " ++ name)] |})
       /\ Contains "Unknown tool" ("Error: Unknown tool: " ++ name))
    /\ (exists result w', call = (ok result, w'))
    /\ (forall handler,
          In (name, handler)
             [("search_drug_events", _search_drug_events upstream py_repr);
              ("get_drug_label_info", _get_drug_label_info upstream py_repr);
              ("search_drug_recalls", _search_drug_recalls upstream py_repr)] ->
          match handler arguments w with
          | (inr result, w') => call = (ok result, w')
          | (inl e, w') =>
              call
              = (ok (tool_error e),
                 {| sent := sent w';
                    logged := List.app (logged w')
                                [(ERROR, "Error calling tool " ++ name ++ ": "
                                         ++ exn_str e)] |})
              /\ isError (tool_error e) = true
              /\ map text (content (tool_error e)) = ["Error: " ++ exn_str e]
          end).
Proof.
  intros upstream py_repr name arguments w call. split; [|split].
  - unfold known_tool. intros H.
    apply orb_false_iff in H. destruct H as [H H3].
    apply orb_false_iff in H. destruct H as [H1 H2].
    split.
    + unfold call, handle_call_tool. rewrite H1, H2, H3. reflexivity.
    + exists "Error: ", (": " ++ name). reflexivity.
  - apply try_except_total. intros e w1. do 2 eexists. reflexivity.
  - intros handler Hin. simpl in Hin.
    destruct Hin as [Hin|[Hin|[Hin|[]]]]; injection Hin as <- <-;
      unfold call, handle_call_tool; cbn [String.eqb Ascii.eqb Bool.eqb];
      unfold try_except;
      match goal with |- context [?h arguments w] =>
        destruct (h arguments w) as [[e|result] w']
      end; try reflexivity; repeat split.
Qed.

(** A run of C6: a tool that does not exist, and a known tool called
    without its required argument. *)
Lemma unknown_tool_error_witness :
  handle_call_tool (constant_upstream JNull) no_repr "delete_everything" [] fresh
  = (ok {| content := [text_content "Error: Unknown tool: delete_everything"];
           isError := true |},
     {| sent := [];
        logged := [(ERROR,
                    "Error calling tool delete_everything: Unknown tool: delete_everything")] |})
  /\ fst (handle_call_tool (constant_upstream JNull) no_repr "search_drug_events" [] fresh)
     = ok {| content := [text_content "Error: 'drug_name'"]; isError := true |}.
Proof.
  split.
  - exact (proj1 (proj1 (unknown_tool_error (constant_upstream JNull) no_repr
                           "delete_everything" [] fresh) eq_refl)).
  - pose proof (proj2 (proj2 (unknown_tool_error (constant_upstream JNull) no_repr
                                "search_drug_events" [] fresh))
                  (_search_drug_events (constant_upstream JNull) no_repr)
                  (or_introl eq_refl)) as H.
    hnf in H. destruct H as (H & _). now rewrite H.
Defined.

(** * Further properties of the handlers *)

Unset Implicit Arguments.

(** ** The course of a tool call *)

Lemma fetch_and_project_cases (upstream : nat -> request -> res json)
    (u : string) (built : res dict) process key limit (w : world) :
  fetch_and_project upstream u built process key limit w
  = match built with
    | inl e => (inl e, w)
    | inr p =>
        (match upstream (List.length (sent w)) {| url := u; params := p |} with
         | inl e => inl e
         | inr data => project_page process key limit data
         end,
         {| sent := List.app (sent w) [{| url := u; params := p |}];
            logged := logged w |})
    end.
Proof.
  unfold fetch_and_project, bind, lift, http_get.
  destruct built as [e|p]; [reflexivity|].
  destruct (upstream _ _); reflexivity.
Qed.

(** A call to a tool is its [fetch_and_project] run, with an exception
    turned into an error result and logged. *)
Lemma handle_call_tool_spec upstream py_repr name (t : tool_spec) arguments w :
  In (name, t) (tool_specs py_repr) ->
  handle_call_tool upstream py_repr name arguments w
  = match fetch_and_project upstream (ts_endpoint t) (ts_build t arguments)
            (ts_process t) (ts_key t)
            (Py.get_or arguments "limit" (JNum (ts_default_limit t))) w with
    | (inr r, w') =>
        (ok {| content := [text_content (Json.dumps r)]; isError := false |}, w')
    | (inl e, w') =>
        (ok {| content := [text_content ("Error: " ++ exn_str e)]; isError := true |},
         {| sent := sent w';
            logged := List.app (logged w')
                        [(ERROR, "Error calling tool " ++ name ++ ": " ++ exn_str e)] |})
    end.
Proof.
  intros Hin. simpl in Hin.
  destruct Hin as [Hin|[Hin|[Hin|[]]]]; injection Hin as <- <-;
    unfold handle_call_tool; cbn [String.eqb Ascii.eqb Bool.eqb];
    unfold try_except, _search_drug_events, _get_drug_label_info,
      _search_drug_recalls, bind;
    cbn [ts_endpoint ts_build ts_process ts_key ts_default_limit];
    [ rewrite search_drug_events_result_eq
    | rewrite get_drug_label_info_result_eq
    | rewrite search_drug_recalls_result_eq ];
    match goal with |- context [fetch_and_project ?a ?b ?c ?d ?e ?f w] =>
      destruct (fetch_and_project a b c d e f w) as [[e0|r] w']
    end; reflexivity.
Qed.

Lemma tool_names_specs py_repr name :
  In name tool_names -> exists t, In (name, t) (tool_specs py_repr).
Proof.
  intros Hin. simpl in Hin.
  destruct Hin as [<-|[<-|[<-|[]]]]; eexists; simpl; eauto.
Qed.

Lemma known_tool_names name : known_tool name = true <-> In name tool_names.
Proof.
  unfold known_tool. split.
  - intros H. apply orb_true_iff in H. destruct H as [H|H];
      [apply orb_true_iff in H; destruct H as [H|H]|];
      apply String.eqb_eq in H; subst; simpl; auto.
  - intros H. simpl in H. destruct H as [<-|[<-|[<-|[]]]]; reflexivity.
Qed.

Lemma unknown_tool_run upstream py_repr name arguments w :
  known_tool name = false ->
  handle_call_tool upstream py_repr name arguments w
  = (ok {| content := [text_content ("Error: Unknown tool: " ++ name)];
           isError := true |},
     {| sent := sent w;
        logged := List.app (logged w)
                    [(ERROR, "Error calling tool " ++ name
                             ++ ": Unknown tool: " ++ name)] |}).
Proof.
  unfold known_tool. intros H.
  apply orb_false_iff in H. destruct H as [H H3].
  apply orb_false_iff in H. destruct H as [H1 H2].
  unfold handle_call_tool. rewrite H1, H2, H3. reflexivity.
Qed.

(** Every builder starts by reading [drug_name]. *)
Lemma build_without_drug_name py_repr name t arguments :
  In (name, t) (tool_specs py_repr) ->
  Py.lookup "drug_name" arguments = None ->
  ts_build t arguments = throw (KeyError "drug_name").
Proof.
  intros Hin H. simpl in Hin.
  destruct Hin as [Hin|[Hin|[Hin|[]]]]; injection Hin as <- <-;
    cbn [ts_build];
    unfold search_drug_events_params, get_drug_label_info_params,
      search_drug_recalls_params, Py.subscript;
    rewrite H; reflexivity.
Qed.

(** X1.  For every tool of the catalogue and every key its input schema
    marks as required, a call whose arguments lack the key issues no
    request and returns a result flagged as an error whose text names the
    key. *)
Theorem required_argument_missing :
  forall upstream py_repr (t : Tool.t) key arguments w,
    In t (tools handle_list_tools) ->
    In key (schema_required (Tool.inputSchema t)) ->
    Py.lookup key arguments = None ->
    handle_call_tool upstream py_repr (Tool.name t) arguments w
    = (ok {| content := [text_content ("Error: '" ++ key ++ "'")]; isError := true |},
       {| sent := sent w;
          logged := List.app (logged w)
                      [(ERROR, "Error calling tool " ++ Tool.name t
                               ++ ": '" ++ key ++ "'")] |}).
Proof.
  intros upstream py_repr t key arguments w Ht Hkey Habsent.
  assert (Hname : In (Tool.name t) tool_names) by (now apply in_map).
  assert (Hk : key = "drug_name").
  { simpl in Ht. destruct Ht as [<-|[<-|[<-|[]]]]; simpl in Hkey;
      destruct Hkey as [<-|[]]; reflexivity. }
  subst key.
  destruct (tool_names_specs py_repr _ Hname) as [spec Hspec].
  rewrite (handle_call_tool_spec upstream py_repr _ _ arguments w Hspec).
  rewrite fetch_and_project_cases.
  now rewrite (build_without_drug_name py_repr _ _ arguments Hspec Habsent).
Qed.

Lemma required_argument_missing_witness :
  handle_call_tool (constant_upstream JNull) no_repr "search_drug_recalls"
    [("limit", JNum 5)] fresh
  = (ok {| content := [text_content "Error: 'drug_name'"]; isError := true |},
     {| sent := [];
        logged := [(ERROR, "Error calling tool search_drug_recalls: 'drug_name'")] |}).
Proof.
  exact (required_argument_missing (constant_upstream JNull) no_repr
           (nth 2 (tools handle_list_tools)
              (Tool.Build_t EmptyString EmptyString JNull))
           "drug_name" [("limit", JNum 5)] fresh
           (or_intror (or_intror (or_introl eq_refl))) (or_introl eq_refl) eq_refl).
Defined.

Lemma build_bad_limit py_repr name t arguments drug_name limit :
  In (name, t) (tool_specs py_repr) ->
  Py.lookup "drug_name" arguments = Some drug_name ->
  Py.lookup "limit" arguments = Some limit ->
  Py.as_int limit = None ->
  ts_build t arguments
  = throw (TypeError ("'<' not supported between instances of 'int' and '"
                      ++ Py.type_name limit ++ "'")).
Proof.
  intros Hin Hn Hl Hbad. simpl in Hin.
  destruct Hin as [Hin|[Hin|[Hin|[]]]]; injection Hin as <- <-;
    cbn [ts_build];
    unfold search_drug_events_params, get_drug_label_info_params,
      search_drug_recalls_params, Py.subscript, Py.get_or, Py.min_int;
    rewrite Hn, Hl; cbn [res_bind ok]; rewrite Hbad; reflexivity.
Qed.

(** X2.  For every tool of the catalogue, a call whose [limit] is neither
    an integer nor a boolean (a string, null, a list, an object) issues no
    request and returns a result flagged as an error carrying the
    interpreter's message for the failed comparison in [min]. *)
Theorem non_numeric_limit_sends_nothing :
  forall upstream py_repr name arguments drug_name limit w,
    In name tool_names ->
    Py.lookup "drug_name" arguments = Some drug_name ->
    Py.lookup "limit" arguments = Some limit ->
    Py.as_int limit = None ->
    let message := "'<' not supported between instances of 'int' and '"
                   ++ Py.type_name limit ++ "'" in
    handle_call_tool upstream py_repr name arguments w
    = (ok {| content := [text_content ("Error: " ++ message)]; isError := true |},
       {| sent := sent w;
          logged := List.app (logged w)
                      [(ERROR, "Error calling tool " ++ name ++ ": " ++ message)] |}).
Proof.
  intros upstream py_repr name arguments drug_name limit w Hname Hn Hl Hbad message.
  destruct (tool_names_specs py_repr _ Hname) as [spec Hspec].
  rewrite (handle_call_tool_spec upstream py_repr _ _ arguments w Hspec).
  rewrite fetch_and_project_cases.
  now rewrite (build_bad_limit py_repr _ _ arguments drug_name limit Hspec Hn Hl Hbad).
Qed.

Lemma non_numeric_limit_sends_nothing_witness :
  handle_call_tool (constant_upstream JNull) no_repr "get_drug_label_info"
    [("drug_name", JStr "aspirin"); ("limit", JStr "5")] fresh
  = (ok {| content :=
             [text_content
                "Error: '<' not supported between instances of 'int' and 'str'"];
           isError := true |},
     {| sent := [];
        logged :=
          [(ERROR,
            "Error calling tool get_drug_label_info: '<' not supported between instances of 'int' and 'str'")] |}).
Proof.
  exact (non_numeric_limit_sends_nothing (constant_upstream JNull) no_repr
           "get_drug_label_info"
           [("drug_name", JStr "aspirin"); ("limit", JStr "5")]
           (JStr "aspirin") (JStr "5") fresh
           (or_intror (or_introl eq_refl)) eq_refl eq_refl eq_refl).
Defined.

Lemma app_one_neq {A} (l : list A) (x : A) : l <> List.app l [x].
Proof.
  intros H. apply (f_equal (@List.length A)) in H.
  rewrite length_app in H. simpl in H. lia.
Qed.

(** X3.  Whenever the request a tool call issued fails upstream (network
    failure, bad status, undecodable body), the call returns a result
    flagged as an error whose text is the message of that failure, and the
    failure is logged once. *)
Theorem upstream_failure_reported :
  forall upstream py_repr name arguments w req e,
    sent (snd (handle_call_tool upstream py_repr name arguments w))
    = List.app (sent w) [req] ->
    upstream (List.length (sent w)) req = inl e ->
    handle_call_tool upstream py_repr name arguments w
    = (ok {| content := [text_content ("Error: " ++ exn_str e)]; isError := true |},
       {| sent := List.app (sent w) [req];
          logged := List.app (logged w)
                      [(ERROR, "Error calling tool " ++ name ++ ": " ++ exn_str e)] |}).
Proof.
  intros upstream py_repr name arguments w req e Hsent Hfail.
  destruct (known_tool name) eqn:K.
  - apply known_tool_names in K.
    destruct (tool_names_specs py_repr _ K) as [spec Hspec].
    rewrite (handle_call_tool_spec upstream py_repr _ _ arguments w Hspec) in Hsent |- *.
    rewrite fetch_and_project_cases in Hsent |- *.
    destruct (ts_build spec arguments) as [e0|p].
    + cbn [snd sent] in Hsent. now apply app_one_neq in Hsent.
    + assert (Hreq : {| url := ts_endpoint spec; params := p |} = req).
      { destruct (upstream _ {| url := ts_endpoint spec; params := p |}) as [e0|data];
          [|destruct (project_page _ _ _ data)];
          cbn [snd sent] in Hsent; apply app_inv_head in Hsent;
          now injection Hsent. }
      rewrite Hreq, Hfail. reflexivity.
  - rewrite (unknown_tool_run upstream py_repr name arguments w K) in Hsent.
    cbn [snd sent] in Hsent. now apply app_one_neq in Hsent.
Qed.

Lemma upstream_failure_reported_witness :
  handle_call_tool (failing_upstream "503 Service Unavailable") no_repr
    "search_drug_events" [("drug_name", JStr "aspirin")] fresh
  = (ok {| content := [text_content "Error: 503 Service Unavailable"];
           isError := true |},
     {| sent := [{| url := FDA_BASE_URL;
                    params := [("search", JStr ("patient.drug.medicinalproduct:" ++ dq
                                                 ++ "aspirin" ++ dq));
                               ("limit", JNum 10)] |}];
        logged := [(ERROR,
                    "Error calling tool search_drug_events: 503 Service Unavailable")] |}).
Proof.
  exact (upstream_failure_reported (failing_upstream "503 Service Unavailable") no_repr
           "search_drug_events" [("drug_name", JStr "aspirin")] fresh
           {| url := FDA_BASE_URL;
              params := [("search", JStr ("patient.drug.medicinalproduct:" ++ dq
                                           ++ "aspirin" ++ dq));
                         ("limit", JNum 10)] |}
           (UpstreamError "503 Service Unavailable") eq_refl eq_refl).
Defined.

(** ** What a tool call asks of the upstream API *)

Lemma min_int_capped (a : json) (cap : Z) (v : json) :
  Py.min_int a cap = ok v -> exists n, Py.as_int v = Some n /\ n <= cap.
Proof.
  unfold Py.min_int. destruct (Py.as_int a) as [n|] eqn:Ha; [|discriminate].
  destruct (Z.ltb_spec cap n) as [Hlt|Hge]; intros Hv; injection Hv as <-.
  - exists cap. split; [reflexivity | lia].
  - exists n. split; [exact Ha | lia].
Qed.

Lemma build_limit_capped py_repr name t arguments p :
  In (name, t) (tool_specs py_repr) ->
  ts_build t arguments = ok p ->
  exists v n, Py.lookup "limit" p = Some v /\ Py.as_int v = Some n /\ n <= ts_cap t.
Proof.
  intros Hin. simpl in Hin.
  destruct Hin as [Hin|[Hin|[Hin|[]]]]; injection Hin as <- <-;
    cbn [ts_build ts_cap];
    unfold search_drug_events_params, get_drug_label_info_params,
      search_drug_recalls_params;
    (destruct (Py.subscript arguments "drug_name") as [e|drug_name];
     [discriminate|]); cbn [res_bind];
    match goal with |- context [Py.min_int ?a ?c] =>
      destruct (Py.min_int a c) as [e|v] eqn:Hmin; [discriminate|];
      destruct (min_int_capped a c v Hmin) as (n & Hn & Hle)
    end; cbn [res_bind].
  - destruct (Py.truthy _).
    + destruct (str_method _ _ _) as [e|range]; [discriminate|].
      cbn [res_bind]. intros H. injection H as <-.
      exists v, n. now repeat split.
    + intros H. injection H as <-. exists v, n. now repeat split.
  - intros H. injection H as <-. exists v, n. now repeat split.
  - intros H. injection H as <-. exists v, n. now repeat split.
Qed.

Lemma spec_endpoint_cap py_repr name t :
  In (name, t) (tool_specs py_repr) ->
  In (name, (ts_endpoint t, ts_cap t))
     [("search_drug_events", (FDA_BASE_URL, 100));
      ("get_drug_label_info", (FDA_DRUG_LABEL_URL, 50));
      ("search_drug_recalls", (FDA_ENFORCEMENT_URL, 100))].
Proof.
  intros Hin. simpl in Hin.
  destruct Hin as [Hin|[Hin|[Hin|[]]]]; injection Hin as <- <-; simpl; auto.
Qed.

(** X4.  Whatever the name, the arguments and the upstream do, a tool call
    returns a result, issues at most one request, and that request goes to
    the endpoint of the tool called and carries a [limit] of at most 100
    (50 for labels).  The log grows by exactly one error record when the
    result is flagged as an error, whose text then is the logged message,
    and not at all otherwise. *)
Theorem tool_call_trace :
  forall upstream py_repr name arguments w,
    exists result w' requests,
      handle_call_tool upstream py_repr name arguments w = (ok result, w')
      /\ sent w' = List.app (sent w) requests
      /\ (List.length requests <= 1)%nat
      /\ (forall req, In req requests ->
            exists cap v n,
              In (name, (url req, cap))
                 [("search_drug_events", (FDA_BASE_URL, 100));
                  ("get_drug_label_info", (FDA_DRUG_LABEL_URL, 50));
                  ("search_drug_recalls", (FDA_ENFORCEMENT_URL, 100))]
              /\ Py.lookup "limit" (params req) = Some v
              /\ Py.as_int v = Some n /\ n <= cap)
      /\ (isError result = false -> logged w' = logged w)
      /\ (isError result = true ->
            exists msg,
              logged w' = List.app (logged w)
                            [(ERROR, "Error calling tool " ++ name ++ ": " ++ msg)]
              /\ map text (content result) = ["Error: " ++ msg]).
Proof.
  intros upstream py_repr name arguments w.
  destruct (known_tool name) eqn:K.
  - apply known_tool_names in K.
    destruct (tool_names_specs py_repr _ K) as [spec Hspec].
    rewrite (handle_call_tool_spec upstream py_repr _ _ arguments w Hspec).
    rewrite fetch_and_project_cases.
    destruct (ts_build spec arguments) as [e|p] eqn:Hbuild.
    + do 2 eexists. exists []. split; [reflexivity|]. cbn [sent logged isError content].
      split; [now rewrite app_nil_r|]. split; [simpl; lia|].
      split; [intros req []|]. split; [discriminate|].
      intros _. exists (exn_str e). now split.
    + assert (Hreq : forall req, In req [{| url := ts_endpoint spec; params := p |}] ->
                exists cap v n,
                  In (name, (url req, cap))
                     [("search_drug_events", (FDA_BASE_URL, 100));
                      ("get_drug_label_info", (FDA_DRUG_LABEL_URL, 50));
                      ("search_drug_recalls", (FDA_ENFORCEMENT_URL, 100))]
                  /\ Py.lookup "limit" (params req) = Some v
                  /\ Py.as_int v = Some n /\ n <= cap).
      { intros req [<-|[]].
        destruct (build_limit_capped py_repr _ _ arguments p Hspec Hbuild)
          as (v & n & Hv & Hn & Hle).
        exists (ts_cap spec), v, n. split; [|now repeat split].
        now apply (spec_endpoint_cap py_repr). }
      destruct (match upstream _ _ with inl e => inl e | inr data => _ end) as [e|r].
      * do 2 eexists. exists [{| url := ts_endpoint spec; params := p |}].
        split; [reflexivity|]. cbn [sent logged isError content].
        split; [reflexivity|]. split; [simpl; lia|].
        split; [exact Hreq|]. split; [discriminate|].
        intros _. exists (exn_str e). now split.
      * do 2 eexists. exists [{| url := ts_endpoint spec; params := p |}].
        split; [reflexivity|]. cbn [sent logged isError content].
        split; [reflexivity|]. split; [simpl; lia|].
        split; [exact Hreq|]. split; [reflexivity|discriminate].
  - rewrite (unknown_tool_run upstream py_repr name arguments w K).
    do 2 eexists. exists []. split; [reflexivity|]. cbn [sent logged isError content].
    split; [now rewrite app_nil_r|]. split; [simpl; lia|].
    split; [intros req []|]. split; [discriminate|].
    intros _. exists ("Unknown tool: " ++ name). now split.
Qed.

(** ** Recalls: the projection, the query and the limit *)

Lemma process_recall_inv (record o : json) :
  process_recall record = ok o ->
  exists d,
    record = JObj d
    /\ keys o = map fst recall_fields
    /\ forall out src, In (out, src) recall_fields ->
         field out o = Some (match Py.lookup src d with
                             | Some v => v
                             | None => JStr "Unknown"
                             end).
Proof.
  intros Hrun. destruct record as [| | | | |d]; try discriminate.
  rewrite process_recall_dict in Hrun. injection Hrun as <-.
  exists d. split; [reflexivity|]. split; [reflexivity|].
  intros out src Hin. simpl in Hin.
  repeat (destruct Hin as [Hin|Hin]; [injection Hin as <- <-; reflexivity|]).
  contradiction.
Qed.

(** X5.  On a well-formed answer search_drug_recalls returns, in order,
    the projections of the first [limit] records of that answer.  The
    projection of a record has the eight fields of a ProjectedRecall, in
    the order of the source; each field holds the value the record has
    under the source key of the field, and the text Unknown where the
    record has no such key, [firm_name] being read from [recalling_firm].
    Every dict has such a projection. *)
Theorem recall_fields_defaults :
  forall upstream py_repr arguments drug_name L w data page,
    Py.lookup "drug_name" arguments = Some drug_name ->
    Py.get_or arguments "limit" (JNum 10) = JNum L ->
    (forall req, upstream (List.length (sent w)) req = ok data) ->
    response_ok is_dict data = true ->
    results_of data = Some page ->
    (forall d : dict,
        exists o,
          process_recall (JObj d) = ok o
          /\ keys o = map fst recall_fields
          /\ forall out src, In (out, src) recall_fields ->
               field out o = Some (match Py.lookup src d with
                                   | Some v => v
                                   | None => JStr "Unknown"
                                   end))
    /\ exists total recalls,
        fst (search_drug_recalls_result upstream py_repr arguments w)
        = ok (JObj [("total_results", total); ("recalls", JArr recalls)])
        /\ Forall2 (fun record o =>
                      process_recall record = ok o
                      /\ exists d,
                           record = JObj d
                           /\ keys o = map fst recall_fields
                           /\ forall out src, In (out, src) recall_fields ->
                                field out o = Some (match Py.lookup src d with
                                                    | Some v => v
                                                    | None => JStr "Unknown"
                                                    end))
             (Py.take L page) recalls.
Proof.
  intros upstream py_repr arguments drug_name L w data page Hn Hl Hup Hok Hpage.
  split.
  { intros d. destruct (process_recall_total (JObj d) eq_refl) as [o Ho].
    exists o. split; [exact Ho|].
    destruct (process_recall_inv (JObj d) o Ho) as (d' & E & Hkeys & Hfields).
    injection E as <-. now split. }
  destruct (@project_page_ok process_recall "recalls" L data page is_dict
              process_recall_total Hok Hpage) as (total & recalls & Hrun & Hall).
  exists total, recalls. split.
  - rewrite search_drug_recalls_result_eq, Hl.
    erewrite fetch_and_project_run;
      [ | exact (@search_drug_recalls_params_eq py_repr arguments drug_name L Hn Hl)
        | apply Hup ].
    rewrite Hrun. reflexivity.
  - revert Hall. apply Forall2_impl. intros record o Ho.
    split; [exact Ho | exact (process_recall_inv record o Ho)].
Qed.

Lemma recall_fields_defaults_witness :
  let record := JObj [("recall_number", JStr "D-0001-2024");
                      ("recalling_firm", JStr "Acme Pharma")] in
  let data := JObj [("results", JArr [record; JObj [("status", JStr "Ongoing")]])] in
  exists total recalls,
    fst (search_drug_recalls_result (constant_upstream data) no_repr
           [("drug_name", JStr "aspirin"); ("limit", JNum 1)] fresh)
    = ok (JObj [("total_results", total); ("recalls", JArr recalls)])
    /\ Forall2 (fun record o =>
                  process_recall record = ok o
                  /\ exists d,
                       record = JObj d
                       /\ keys o = map fst recall_fields
                       /\ forall out src, In (out, src) recall_fields ->
                            field out o = Some (match Py.lookup src d with
                                                | Some v => v
                                                | None => JStr "Unknown"
                                                end))
         [record] recalls.
Proof.
  intros record data.
  exact (proj2 (recall_fields_defaults (constant_upstream data) no_repr
                  [("drug_name", JStr "aspirin"); ("limit", JNum 1)]
                  (JStr "aspirin") 1 fresh data
                  [record; JObj [("status", JStr "Ongoing")]]
                  eq_refl eq_refl (fun _ => eq_refl) eq_refl eq_refl)).
Defined.

(** The recall of the run above, field by field. *)
Example recall_fields_defaults_run :
  let record := JObj [("recall_number", JStr "D-0001-2024");
                      ("recalling_firm", JStr "Acme Pharma")] in
  let data := JObj [("results", JArr [record; JObj [("status", JStr "Ongoing")]])] in
  fst (search_drug_recalls_result (constant_upstream data) no_repr
         [("drug_name", JStr "aspirin"); ("limit", JNum 1)] fresh)
  = ok (JObj [("total_results", JNum 0);
              ("recalls",
               JArr [JObj [("recall_number", JStr "D-0001-2024");
                           ("product_description", JStr "Unknown");
                           ("reason_for_recall", JStr "Unknown");
                           ("classification", JStr "Unknown");
                           ("status", JStr "Unknown");
                           ("recall_initiation_date", JStr "Unknown");
                           ("firm_name", JStr "Acme Pharma");
                           ("distribution_pattern", JStr "Unknown")]])]).
Proof. vm_compute. reflexivity. Qed.

(** X6.  With [classification] absent (or empty) the recall query is the
    product clause alone; with a classification it is the product clause,
    the word AND and the classification clause.  The limit sent is
    min(limit, 100). *)
Theorem recall_query_classification :
  forall upstream py_repr arguments drug_name L w,
    Py.lookup "drug_name" arguments = Some drug_name ->
    Py.get_or arguments "limit" (JNum 10) = JNum L ->
    let classification := Py.get_or arguments "classification" JNull in
    let product := "product_description:" ++ dq ++ fmt py_repr drug_name ++ dq in
    sent (snd (search_drug_recalls_result upstream py_repr arguments w))
    = List.app (sent w)
        [{| url := FDA_ENFORCEMENT_URL;
            params :=
              [("search",
                JStr (if Py.truthy classification
                      then product ++ " AND " ++ "classification:" ++ dq
                           ++ fmt py_repr classification ++ dq
                      else product));
               ("limit", JNum (Z.min L 100))] |}].
Proof.
  intros upstream py_repr arguments drug_name L w Hn Hl classification product.
  rewrite search_drug_recalls_result_eq.
  apply fetch_and_project_sends.
  rewrite (@search_drug_recalls_params_eq py_repr arguments drug_name L Hn Hl).
  cbv zeta. fold classification. destruct (Py.truthy classification); reflexivity.
Qed.

Lemma recall_query_classification_witness :
  sent (snd (search_drug_recalls_result (constant_upstream JNull) no_repr
               [("drug_name", JStr "aspirin"); ("classification", JStr "Class I")]
               fresh))
  = [{| url := FDA_ENFORCEMENT_URL;
        params := [("search",
                    JStr ("product_description:" ++ dq ++ "aspirin" ++ dq
                          ++ " AND classification:" ++ dq ++ "Class I" ++ dq));
                   ("limit", JNum 10)] |}].
Proof.
  exact (recall_query_classification (constant_upstream JNull) no_repr
           [("drug_name", JStr "aspirin"); ("classification", JStr "Class I")]
           (JStr "aspirin") 10 fresh eq_refl eq_refl).
Defined.

Lemma take_negative {A} (L : Z) (l : list A) :
  L < 0 -> Py.take L l = firstn (List.length l - Z.to_nat (- L)) l.
Proof.
  intros H. unfold Py.take. destruct (Z.leb_spec 0 L); [lia|].
  f_equal. lia.
Qed.

(** X7.  A negative [limit] is not rejected: search_drug_recalls forwards
    it to the upstream as it is and, on a well-formed answer, returns the
    projections of all the records but the last -limit ones (Python's
    slice), none when the answer has no more than that. *)
Theorem negative_limit_drops_last :
  forall upstream py_repr arguments drug_name L w data page,
    Py.lookup "drug_name" arguments = Some drug_name ->
    Py.lookup "limit" arguments = Some (JNum L) ->
    L < 0 ->
    (forall req, upstream (List.length (sent w)) req = ok data) ->
    response_ok is_dict data = true ->
    results_of data = Some page ->
    exists req total recalls,
      search_drug_recalls_result upstream py_repr arguments w
      = (ok (JObj [("total_results", total); ("recalls", JArr recalls)]),
         {| sent := List.app (sent w) [req]; logged := logged w |})
      /\ Py.lookup "limit" (params req) = Some (JNum L)
      /\ Forall2 (fun record recall => process_recall record = ok recall)
           (firstn (List.length page - Z.to_nat (- L)) page) recalls
      /\ List.length recalls = (List.length page - Z.to_nat (- L))%nat.
Proof.
  intros upstream py_repr arguments drug_name L w data page Hn Hl HL Hup Hok Hpage.
  assert (Hl' : Py.get_or arguments "limit" (JNum 10) = JNum L)
    by (unfold Py.get_or; now rewrite Hl).
  destruct (@project_page_ok process_recall "recalls" L data page is_dict
              process_recall_total Hok Hpage) as (total & recalls & Hrun & Hall).
  rewrite (take_negative L page HL) in Hall.
  eexists. exists total, recalls. split; [|split; [|split]].
  - rewrite search_drug_recalls_result_eq, Hl'.
    erewrite fetch_and_project_run;
      [ | exact (@search_drug_recalls_params_eq py_repr arguments drug_name L Hn Hl')
        | apply Hup ].
    rewrite Hrun. reflexivity.
  - cbn [params Py.lookup String.eqb Ascii.eqb Bool.eqb]. do 2 f_equal. lia.
  - exact Hall.
  - rewrite <- (Forall2_length Hall). rewrite length_firstn. lia.
Qed.

Lemma negative_limit_drops_last_witness :
  let page := [JObj [("status", JStr "Ongoing")]; JObj []; JObj []] in
  exists total recall,
    fst (search_drug_recalls_result (constant_upstream (JObj [("results", JArr page)]))
           no_repr [("drug_name", JStr "aspirin"); ("limit", JNum (-2))] fresh)
    = ok (JObj [("total_results", total); ("recalls", JArr [recall])])
    /\ field "status" recall = Some (JStr "Ongoing").
Proof.
  intros page.
  destruct (negative_limit_drops_last
              (constant_upstream (JObj [("results", JArr page)])) no_repr
              [("drug_name", JStr "aspirin"); ("limit", JNum (-2))]
              (JStr "aspirin") (-2) fresh (JObj [("results", JArr page)]) page
              eq_refl eq_refl ltac:(lia) (fun _ => eq_refl) eq_refl eq_refl)
    as (req & total & recalls & Hrun & _ & Hall & _).
  cbn in Hall. inversion Hall as [|record o records' recalls' Ho Hrest]; subst.
  inversion Hrest; subst. injection Ho as <-.
  exists total. eexists. split; [now rewrite Hrun | reflexivity].
Defined.

(** ** The total, the date range, and malformed records *)

Lemma total_results_upstream (data total : json) :
  total_results data = ok total -> total = upstream_total data.
Proof.
  unfold total_results, upstream_total.
  destruct data as [| | | | |f]; try discriminate.
  cbn [Py.get res_bind ok field]. rewrite get_or_lookup.
  destruct (Py.lookup "meta" f) as [meta|].
  - destruct meta as [| | | | |m]; try discriminate.
    cbn [Py.get res_bind ok field]. rewrite get_or_lookup.
    destruct (Py.lookup "results" m) as [results|].
    + destruct results as [| | | | |rr]; try discriminate.
      cbn [Py.get res_bind ok field]. rewrite get_or_lookup.
      intros H. injection H as <-. now destruct (Py.lookup "total" rr).
    + cbn. intros H. now injection H as <-.
  - cbn. intros H. now injection H as <-.
Qed.

(** X8.  In the result of each of the three tools, [total_results] is the
    total the upstream answer reports under meta.results.total, whatever
    the limit and the number of records returned, and 0 when the answer
    reports none. *)
Theorem total_is_upstream_total :
  forall upstream py_repr name result_of arguments w r w',
    In (name, result_of)
       [("search_drug_events", search_drug_events_result upstream py_repr);
        ("get_drug_label_info", get_drug_label_info_result upstream py_repr);
        ("search_drug_recalls", search_drug_recalls_result upstream py_repr)] ->
    result_of arguments w = (ok r, w') ->
    exists req data,
      sent w' = List.app (sent w) [req]
      /\ upstream (List.length (sent w)) req = ok data
      /\ field "total_results" r = Some (upstream_total data)
      /\ (field "meta" data = None -> field "total_results" r = Some (JNum 0)).
Proof.
  intros upstream py_repr name result_of arguments w r w' Hin Hrun.
  assert (H : exists u built process key limit,
            result_of arguments w
            = fetch_and_project upstream u built process key limit w).
  { simpl in Hin. destruct Hin as [Hin|[Hin|[Hin|[]]]]; injection Hin as <- <-.
    - rewrite search_drug_events_result_eq. now do 5 eexists.
    - rewrite get_drug_label_info_result_eq. now do 5 eexists.
    - rewrite search_drug_recalls_result_eq. now do 5 eexists. }
  destruct H as (u & built & process & key & limit & E).
  rewrite E, fetch_and_project_cases in Hrun.
  destruct built as [e|p]; [discriminate|].
  destruct (upstream _ _) as [e|data] eqn:Hup; [discriminate|].
  injection Hrun as Hpage <-.
  exists {| url := u; params := p |}, data.
  split; [reflexivity|]. split; [exact Hup|].
  unfold project_page in Hpage.
  destruct (Py.get data "results" (JArr [])) as [e|records]; [discriminate|].
  cbn [res_bind] in Hpage.
  destruct (Py.slice_to records limit) as [e|page]; [discriminate|].
  cbn [res_bind] in Hpage.
  destruct (Py.iter page) as [e|items]; [discriminate|].
  cbn [res_bind] in Hpage.
  destruct (res_map process items) as [e|out]; [discriminate|].
  cbn [res_bind] in Hpage.
  destruct (total_results data) as [e|total] eqn:Htotal; [discriminate|].
  cbn [res_bind] in Hpage. injection Hpage as <-.
  apply total_results_upstream in Htotal. subst total.
  split; [reflexivity|].
  intros Hmeta. cbn [field Py.lookup String.eqb Ascii.eqb Bool.eqb].
  unfold upstream_total. now rewrite Hmeta.
Qed.

Lemma total_is_upstream_total_witness :
  let data := JObj [("meta", JObj [("results", JObj [("total", JNum 4812)])]);
                    ("results", JArr [JObj []])] in
  exists req data',
    [{| url := FDA_DRUG_LABEL_URL;
        params := [("search", JStr (label_search "aspirin")); ("limit", JNum 1)] |}]
    = [req]
    /\ constant_upstream data 0%nat req = ok data'
    /\ Some (JNum 4812) = Some (upstream_total data')
    /\ (field "meta" data' = None -> Some (JNum 4812) = Some (JNum 0)).
Proof.
  intros data.
  exact (total_is_upstream_total (constant_upstream data) no_repr
           "get_drug_label_info" (get_drug_label_info_result (constant_upstream data) no_repr)
           [("drug_name", JStr "aspirin"); ("limit", JNum 1)] fresh
           (JObj [("total_results", JNum 4812);
                  ("labels",
                   JArr [JObj [("brand_names", JArr []); ("generic_names", JArr []);
                               ("manufacturer", JArr []); ("substance_names", JArr []);
                               ("product_type", JArr []); ("route", JArr []);
                               ("indications_and_usage", JArr [JStr "Not available"]);
                               ("warnings", JArr [JStr "Not available"]);
                               ("adverse_reactions", JArr [JStr "Not available"]);
                               ("dosage_and_administration",
                                JArr [JStr "Not available"])]])])
           {| sent := [{| url := FDA_DRUG_LABEL_URL;
                          params := [("search", JStr (label_search "aspirin"));
                                     ("limit", JNum 1)] |}];
              logged := [] |}
           (or_intror (or_introl eq_refl)) eq_refl).
Defined.

(** X9.  When [date_range] is absent, null or the empty string, the
    search string search_drug_events sends is the drug clause alone: no
    receivedate clause is added. *)
Theorem no_date_range_no_clause :
  forall upstream py_repr arguments drug_name L w,
    Py.lookup "drug_name" arguments = Some drug_name ->
    Py.get_or arguments "limit" (JNum 10) = JNum L ->
    In (Py.get_or arguments "date_range" JNull) [JNull; JStr EmptyString] ->
    sent (snd (search_drug_events_result upstream py_repr arguments w))
    = List.app (sent w)
        [{| url := FDA_BASE_URL;
            params := [("search",
                        JStr ("patient.drug.medicinalproduct:" ++ dq
                              ++ fmt py_repr drug_name ++ dq));
                       ("limit", JNum (Z.min L 100))] |}].
Proof.
  intros upstream py_repr arguments drug_name L w Hn Hl Hd.
  rewrite search_drug_events_result_eq.
  apply fetch_and_project_sends.
  apply search_drug_events_params_plain; [exact Hn | exact Hl |].
  destruct Hd as [<-|[<-|[]]]; reflexivity.
Qed.

Lemma no_date_range_no_clause_witness :
  sent (snd (search_drug_events_result (constant_upstream JNull) no_repr
               [("drug_name", JStr "aspirin"); ("date_range", JStr EmptyString)]
               fresh))
  = [{| url := FDA_BASE_URL;
        params := [("search",
                    JStr ("patient.drug.medicinalproduct:" ++ dq ++ "aspirin" ++ dq));
                   ("limit", JNum 10)] |}].
Proof.
  exact (no_date_range_no_clause (constant_upstream JNull) no_repr
           [("drug_name", JStr "aspirin"); ("date_range", JStr EmptyString)]
           (JStr "aspirin") 10 fresh eq_refl eq_refl (or_intror (or_introl eq_refl))).
Defined.

Lemma res_map_first_failure {A B} (f : A -> res B) (good : list A) (bad : A)
    (rest : list A) (e : exn) :
  (forall a, In a good -> exists b, f a = ok b) ->
  f bad = inl e ->
  res_map f (List.app good (bad :: rest)) = inl e.
Proof.
  intros Hgood Hbad. induction good as [|a good IH]; simpl.
  - now rewrite Hbad.
  - destruct (Hgood a (or_introl eq_refl)) as [b Hb]. rewrite Hb. simpl.
    rewrite IH; [reflexivity|]. intros a' Ha'. apply Hgood. now right.
Qed.

(** X10.  One malformed record fails the whole call: when, among the
    records within the requested limit of a recall answer, the first one
    that is not a JSON object is [bad], search_drug_recalls returns no
    recall at all but a result flagged as an error, whose text is the
    interpreter's message for calling [get] on a value of the type of
    [bad]. *)
Theorem malformed_record_fails_call :
  forall upstream py_repr arguments drug_name L w data page good bad rest,
    Py.lookup "drug_name" arguments = Some drug_name ->
    Py.get_or arguments "limit" (JNum 10) = JNum L ->
    (forall req, upstream (List.length (sent w)) req = ok data) ->
    results_of data = Some page ->
    Py.take L page = List.app (map JObj good) (bad :: rest) ->
    is_dict bad = false ->
    let message := "'" ++ Py.type_name bad ++ "' object has no attribute 'get'" in
    exists req,
      handle_call_tool upstream py_repr "search_drug_recalls" arguments w
      = (ok {| content := [text_content ("Error: " ++ message)]; isError := true |},
         {| sent := List.app (sent w) [req];
            logged := List.app (logged w)
                        [(ERROR, "Error calling tool search_drug_recalls: " ++ message)] |}).
Proof.
  intros upstream py_repr arguments drug_name L w data page good bad rest
    Hn Hl Hup Hpage Htake Hbad message.
  eexists.
  rewrite (handle_call_tool_spec upstream py_repr "search_drug_recalls"
             {| ts_endpoint := FDA_ENFORCEMENT_URL;
                ts_build := search_drug_recalls_params py_repr;
                ts_process := process_recall;
                ts_key := "recalls";
                ts_default_limit := 10;
                ts_cap := 100 |}
             arguments w (or_intror (or_intror (or_introl eq_refl)))).
  cbn [ts_endpoint ts_build ts_process ts_key ts_default_limit].
  rewrite fetch_and_project_cases.
  rewrite (@search_drug_recalls_params_eq py_repr arguments drug_name L Hn Hl).
  assert (Hup' : forall req, upstream (List.length (sent w)) req = inr data)
    by exact Hup.
  unfold ok at 1. cbv beta iota. rewrite Hup', Hl.
  assert (Hfail : project_page process_recall "recalls" (JNum L) data
                  = inl (AttributeError message)).
  { unfold project_page. destruct data as [| | | | |f]; try discriminate.
    cbn [Py.get res_bind ok]. unfold results_of in Hpage. rewrite get_or_lookup.
    destruct (Py.lookup "results" f) as [[| | | |l|]|]; try discriminate;
      injection Hpage as ->; rewrite slice_to_list; cbn [res_bind ok Py.iter];
      rewrite Htake;
      rewrite (res_map_first_failure process_recall (map JObj good) bad rest
                 (AttributeError message));
      try reflexivity;
      try (intros a Ha; apply in_map_iff in Ha; destruct Ha as (d & <- & _);
           eexists; apply process_recall_dict);
      destruct bad; try discriminate; reflexivity. }
  rewrite Hfail. reflexivity.
Qed.

Lemma malformed_record_fails_call_witness :
  let data := JObj [("results", JArr [JObj [("status", JStr "Ongoing")];
                                      JStr "corrupt"; JObj []])] in
  exists req,
    handle_call_tool (constant_upstream data) no_repr "search_drug_recalls"
      [("drug_name", JStr "aspirin")] fresh
    = (ok {| content :=
               [text_content "Error: 'str' object has no attribute 'get'"];
             isError := true |},
       {| sent := [req];
          logged := [(ERROR,
                      "Error calling tool search_drug_recalls: 'str' object has no attribute 'get'")] |}).
Proof.
  intros data.
  exact (malformed_record_fails_call (constant_upstream data) no_repr
           [("drug_name", JStr "aspirin")] (JStr "aspirin") 10 fresh data
           [JObj [("status", JStr "Ongoing")]; JStr "corrupt"; JObj []]
           [[("status", JStr "Ongoing")]] (JStr "corrupt") [JObj []]
           eq_refl eq_refl (fun _ => eq_refl) eq_refl eq_refl eq_refl).
Defined.

(** ** The prompts *)

Lemma rstrip_all_space (ws : string) : all_space ws = true -> rstrip ws = EmptyString.
Proof.
  induction ws as [|c ws IH]; simpl; [reflexivity|].
  intros H. apply andb_true_iff in H. destruct H as [Hc Hws].
  now rewrite (IH Hws), Hc.
Qed.

Lemma rstrip_tail (t ws : string) :
  t <> EmptyString -> ends_with_space t = false -> all_space ws = true ->
  rstrip (t ++ ws) = t.
Proof.
  intros Hne Hend Hws. induction t as [|c t IH]; [congruence|].
  cbn [append rstrip]. destruct t as [|c' t'].
  - cbn [append]. rewrite (rstrip_all_space ws Hws). simpl in Hend. now rewrite Hend.
  - rewrite IH; [reflexivity | discriminate | exact Hend].
Qed.

(** [strip] undoes exactly the line feeds a template opens and closes
    with, when the text between them starts and ends with visible
    characters. *)
Lemma strip_wrapped (t : string) :
  match t with EmptyString => False | String c _ => is_space c = false end ->
  ends_with_space t = false ->
  strip (nl ++ t ++ nl) = t.
Proof.
  intros Hhead Hend. destruct t as [|c t]; [contradiction|].
  unfold strip.
  change (lstrip (nl ++ String c t ++ nl))
    with (if is_space c then lstrip (t ++ nl) else String c (t ++ nl)).
  rewrite Hhead.
  change (String c (t ++ nl)) with (String c t ++ nl).
  apply rstrip_tail; [discriminate | exact Hend | reflexivity].
Qed.

Lemma join_cons (sep l : string) (rest : list string) :
  rest <> [] -> join sep (l :: rest) = l ++ sep ++ join sep rest.
Proof. destruct rest; [congruence | reflexivity]. Qed.

Lemma join_wrapped (sep : string) (lines : list string) :
  lines <> [] ->
  join sep (EmptyString :: List.app lines [EmptyString]) = sep ++ join sep lines ++ sep.
Proof.
  intros Hne. rewrite join_empty_head by (destruct lines; discriminate).
  f_equal. induction lines as [|l lines IH]; [congruence|].
  destruct lines as [|l' lines'].
  - cbn. now rewrite append_nil_r.
  - change (List.app (l :: l' :: lines') [EmptyString])
      with (l :: List.app (l' :: lines') [EmptyString]).
    rewrite join_cons by discriminate.
    rewrite IH by discriminate.
    rewrite (join_cons sep l (l' :: lines')) by discriminate.
    now rewrite !append_assoc.
Qed.

Lemma ends_with_space_append (a b : string) :
  b <> EmptyString -> ends_with_space (a ++ b) = ends_with_space b.
Proof.
  intros Hb. induction a as [|c a IH]; [reflexivity|].
  cbn [append]. destruct (a ++ b) as [|c' r] eqn:E.
  - destruct a; [simpl in E; congruence | discriminate].
  - exact IH.
Qed.

Lemma join_ends_with_last (sep : string) (init : list string) (last : string) :
  last <> EmptyString ->
  ends_with_space (join sep (List.app init [last])) = ends_with_space last.
Proof.
  intros Hl. assert (H : exists pre, join sep (List.app init [last]) = pre ++ last).
  { induction init as [|l init (pre & IH)].
    - now exists EmptyString.
    - exists (l ++ sep ++ pre).
      change (List.app (l :: init) [last]) with (l :: List.app init [last]).
      rewrite join_cons by (destruct init; discriminate).
      rewrite IH. now rewrite !append_assoc. }
  destruct H as [pre ->]. now apply ends_with_space_append.
Qed.

Lemma safety_template_strip (drug_name focus_area : string) :
  strip (join nl (EmptyString
                  :: List.app (safety_analysis_lines drug_name focus_area)
                       [EmptyString]))
  = safety_analysis_text drug_name focus_area.
Proof.
  rewrite join_wrapped by discriminate.
  apply strip_wrapped; [exact eq_refl|].
  exact (join_ends_with_last nl
           (removelast (safety_analysis_lines drug_name focus_area))
           "Please ensure your analysis is evidence-based and cite specific FDA data sources."
           ltac:(discriminate)).
Qed.

Lemma comparison_template_strip (drugs : list string) :
  strip (join nl (EmptyString
                  :: List.app (drug_comparison_lines drugs) [EmptyString]))
  = drug_comparison_text drugs.
Proof.
  rewrite join_wrapped by discriminate.
  apply strip_wrapped; [exact eq_refl|].
  exact (join_ends_with_last nl (removelast (drug_comparison_lines drugs))
           "Present the comparison in a clear, structured format that helps understand the relative risks and benefits of each medication."
           ltac:(discriminate)).
Qed.

(** X11.  Given a drug name, the analyze_drug_safety generator returns a
    prompt of one user message whose text is the template with the drug
    name in its four places and the focus area in its place, without the
    blank lines around it and otherwise untouched (white space inside the
    drug name included); the focus area is the text general safety when
    the caller gives none. *)
Theorem safety_prompt_text :
  forall py_repr arguments drug_name,
    Py.lookup "drug_name" arguments = Some drug_name ->
    let focus_area :=
      match Py.lookup "focus_area" arguments with
      | Some given => fmt py_repr given
      | None => "general safety"
      end in
    _get_safety_analysis_prompt py_repr arguments
    = ok {| description := "Safety analysis prompt for " ++ fmt py_repr drug_name;
            messages :=
              [{| role := "user";
                  message_content :=
                    {| type := "text";
                       text := safety_analysis_text (fmt py_repr drug_name)
                                 focus_area |} |}] |}.
Proof.
  intros py_repr arguments drug_name Hn focus_area.
  unfold _get_safety_analysis_prompt, Py.subscript. rewrite Hn.
  cbn [res_bind ok]. unfold user_message, text_content.
  assert (Hf : fmt py_repr (Py.get_or arguments "focus_area" (JStr "general safety"))
               = focus_area).
  { unfold focus_area. rewrite get_or_lookup.
    now destruct (Py.lookup "focus_area" arguments). }
  rewrite Hf.
  change (strip (join nl _))
    with (strip (join nl (EmptyString
                          :: List.app (safety_analysis_lines (fmt py_repr drug_name)
                                         focus_area) [EmptyString]))).
  now rewrite safety_template_strip.
Qed.

Lemma safety_prompt_text_witness :
  _get_safety_analysis_prompt no_repr [("drug_name", JStr " warfarin ")]
  = ok {| description := "Safety analysis prompt for  warfarin ";
          messages :=
            [{| role := "user";
                message_content :=
                  {| type := "text";
                     text := safety_analysis_text " warfarin " "general safety" |} |}] |}.
Proof.
  exact (safety_prompt_text no_repr [("drug_name", JStr " warfarin ")]
           (JStr " warfarin ") eq_refl).
Defined.

(** X12.  Given a string as [drug_list], the drug_comparison generator
    returns a prompt of one user message whose text is the template with
    the trimmed names joined by a comma and a space, without the blank
    lines around it; a missing [drug_list] raises KeyError and a
    [drug_list] that is not a string raises AttributeError, both before
    any text is built. *)
Theorem comparison_prompt_text :
  forall arguments,
    match Py.lookup "drug_list" arguments with
    | Some (JStr drug_list) =>
        let drugs := map strip (split "," drug_list) in
        _get_drug_comparison_prompt arguments
        = ok {| description := "Comparative analysis prompt for: " ++ join ", " drugs;
                messages :=
                  [{| role := "user";
                      message_content :=
                        {| type := "text"; text := drug_comparison_text drugs |} |}] |}
    | Some other =>
        _get_drug_comparison_prompt arguments
        = throw (AttributeError ("'" ++ Py.type_name other
                                 ++ "' object has no attribute 'split'"))
    | None => _get_drug_comparison_prompt arguments = throw (KeyError "drug_list")
    end.
Proof.
  intros arguments. unfold _get_drug_comparison_prompt, Py.subscript.
  destruct (Py.lookup "drug_list" arguments) as [[| | |drug_list| |]|];
    try reflexivity.
  cbn [res_bind ok comparison_drugs str_method]. unfold user_message, text_content.
  change (strip (join nl _))
    with (strip (join nl (EmptyString
                          :: List.app (drug_comparison_lines
                                         (map strip (split "," drug_list)))
                               [EmptyString]))).
  now rewrite comparison_template_strip.
Qed.

(** X13.  Getting a prompt never raises and never issues a request.  A
    name that is none of the catalogue's prompts gets the prompt described
    as Error getting prompt whose message is Error: Unknown prompt:
    followed by the name; the log grows only when the prompt returned is
    that error prompt, by the one record of the failure. *)
Theorem prompts_touch_nothing :
  forall py_repr name arguments w,
    exists result w',
      handle_get_prompt py_repr name arguments w = (ok result, w')
      /\ sent w' = sent w
      /\ (~ In name prompt_names ->
          result = {| description := "Error getting prompt";
                      messages := [user_message ("Error: Unknown prompt: " ++ name)] |})
      /\ (logged w' = logged w
          \/ exists e,
               result = {| description := "Error getting prompt";
                           messages := [user_message ("Error: " ++ exn_str e)] |}
               /\ logged w'
                  = List.app (logged w)
                      [(ERROR, "Error getting prompt " ++ name ++ ": " ++ exn_str e)]).
Proof.
  intros py_repr name arguments w. unfold handle_get_prompt, try_except, lift, raise.
  destruct (String.eqb_spec name "analyze_drug_safety") as [->|N1].
  - destruct (_get_safety_analysis_prompt py_repr arguments) as [e|r];
      do 2 eexists; (split; [reflexivity|]); cbn [sent logged];
      (split; [reflexivity|]); (split; [intros H; exfalso; apply H; simpl; auto|]).
    + right. exists e. now split.
    + now left.
  - destruct (String.eqb_spec name "drug_comparison") as [->|N2].
    + destruct (_get_drug_comparison_prompt arguments) as [e|r];
        do 2 eexists; (split; [reflexivity|]); cbn [sent logged];
        (split; [reflexivity|]); (split; [intros H; exfalso; apply H; simpl; auto|]).
      * right. exists e. now split.
      * now left.
    + do 2 eexists. split; [reflexivity|]. cbn [sent logged].
      split; [reflexivity|]. split; [reflexivity|].
      right. exists (ValueError ("Unknown prompt: " ++ name)). now split.
Qed.

(** ** The resources *)

Lemma replace_passes (a rest : string) :
  has_char "_" a = false ->
  replace_from "_to_" " TO " 0 (a ++ rest) = a ++ replace_from "_to_" " TO " 0 rest.
Proof.
  induction a as [|c a IH]; [reflexivity|].
  cbn [has_char]. intros H. apply orb_false_iff in H. destruct H as [Hc Ha].
  cbn [append replace_from prefix].
  destruct (ascii_dec "_" c) as [E|_].
  - subst c. discriminate Hc.
  - now rewrite (IH Ha).
Qed.

Lemma replace_window (a b : string) :
  has_char "_" a = false -> has_char "_" b = false ->
  replace "_to_" " TO " (a ++ "_to_" ++ b) = a ++ " TO " ++ b.
Proof.
  intros Ha Hb. unfold replace. rewrite (replace_passes a _ Ha). f_equal.
  assert (Hmark : replace_from "_to_" " TO " 0 ("_to_" ++ b)
                  = " TO " ++ replace_from "_to_" " TO " 0 b)
    by (destruct b; reflexivity).
  rewrite Hmark. f_equal. rewrite <- (append_nil_r b) at 1.
  rewrite (replace_passes b EmptyString Hb). cbn [replace_from]. apply append_nil_r.
Qed.

(** X14.  Reading the recent-events resource issues one request to the
    adverse-event endpoint, for at most 20 records received between the
    day thirty days before today and today, both rendered by [strftime]
    (whose YYYYMMDD rendering holds no underscore); what it returns is the
    upstream answer as it is, or the upstream failure. *)
Theorem recent_events_window :
  forall upstream today strftime_Ymd w,
    has_char "_" (strftime_Ymd (today - 30)) = false ->
    has_char "_" (strftime_Ymd today) = false ->
    let req := {| url := FDA_BASE_URL;
                  params := [("search",
                              JStr ("receivedate:[" ++ strftime_Ymd (today - 30)
                                    ++ " TO " ++ strftime_Ymd today ++ "]"));
                             ("limit", JNum 20)] |} in
    _get_recent_drug_events upstream today strftime_Ymd w
    = (upstream (List.length (sent w)) req,
       {| sent := List.app (sent w) [req]; logged := logged w |}).
Proof.
  intros upstream today strftime_Ymd w Ha Hb req.
  unfold _get_recent_drug_events, http_get.
  rewrite (replace_window _ _ Ha Hb). rewrite !append_assoc. reflexivity.
Qed.

Lemma recent_events_window_witness :
  _get_recent_drug_events (constant_upstream (JObj [])) 20240131 day_number fresh
  = (ok (JObj []),
     {| sent := [{| url := FDA_BASE_URL;
                    params := [("search", JStr "receivedate:[20240101 TO 20240131]");
                               ("limit", JNum 20)] |}];
        logged := [] |}).
Proof.
  exact (recent_events_window (constant_upstream (JObj [])) 20240131 day_number fresh
           eq_refl eq_refl).
Defined.

Lemma known_resource_uris uri : known_resource uri = true <-> In uri resource_uris.
Proof.
  unfold known_resource. split.
  - intros H. apply orb_true_iff in H. destruct H as [H|H];
      [apply orb_true_iff in H; destruct H as [H|H]|];
      apply String.eqb_eq in H; subst; simpl; auto.
  - intros H. simpl in H. destruct H as [<-|[<-|[<-|[]]]]; reflexivity.
Qed.

(** X15.  A resource read called with a str issues a request exactly when
    the str is a URI of the catalogue of resources: one request for the
    recent events and the recent recalls, three for the popular labels,
    none for any other str.  Called with the URL object of the dispatcher
    it issues no request, whatever the URL, since the object equals none
    of the str literals the handler compares it with.  No request of a
    read asks for more than 20 records. *)
Theorem resource_read_requests :
  forall upstream validation_message today strftime_Ymd uri w,
    exists requests,
      sent (snd (handle_read_resource upstream today strftime_Ymd validation_message uri w))
      = List.app (sent w) requests
      /\ ((exists s, uri = UriStr s /\ In s resource_uris) <-> requests <> [])
      /\ List.length requests
         = match uri with
           | UriStr s =>
               if String.eqb s "fda://drug-labels/popular" then 3%nat
               else if known_resource s then 1%nat else 0%nat
           | AnyUrl _ => 0%nat
           end
      /\ Forall (fun req =>
                   exists n, Py.lookup "limit" (params req) = Some (JNum n) /\ n <= 20)
           requests.
Proof.
  intros upstream validation_message today strftime_Ymd uri w.
  rewrite read_unfold, read_run. cbn [snd sent].
  destruct uri as [s|s].
  - destruct (known_resource s) eqn:K.
    + assert (Hin := proj1 (known_resource_uris s) K). simpl in Hin.
      destruct Hin as [<-|[<-|[<-|[]]]]; cbn [uri_eq String.eqb Ascii.eqb Bool.eqb].
      * unfold _get_recent_drug_events. rewrite http_get_run. cbn [snd sent].
        eexists [_]. split; [reflexivity|].
        split; [split; [discriminate | intros _; eexists; split; [reflexivity|simpl; auto]]|].
        split; [reflexivity|].
        constructor; [|constructor]. exists 20. split; [reflexivity | lia].
      * rewrite popular_run. cbn [snd sent].
        eexists [_; _; _]. split; [reflexivity|].
        split; [split; [discriminate | intros _; eexists; split; [reflexivity|simpl; auto]]|].
        split; [reflexivity|].
        repeat constructor; exists 1; (split; [reflexivity | lia]).
      * unfold _get_recent_recalls. rewrite http_get_run. cbn [snd sent].
        eexists [_]. split; [reflexivity|].
        split; [split; [discriminate | intros _; eexists; split; [reflexivity|simpl; auto]]|].
        split; [reflexivity|].
        constructor; [|constructor]. exists 20. split; [reflexivity | lia].
    + exists [].
      assert (Hnot : ~ In s resource_uris).
      { intros H. apply known_resource_uris in H. congruence. }
      unfold known_resource in K.
      apply orb_false_iff in K. destruct K as [K K3].
      apply orb_false_iff in K. destruct K as [K1 K2].
      cbn [uri_eq]. rewrite K1, K2, K3. cbn.
      split; [now rewrite app_nil_r|].
      split; [split; [intros (s' & E & H); injection E as <-; contradiction | congruence]|].
      split; [reflexivity | constructor].
  - exists []. cbn.
    split; [now rewrite app_nil_r|].
    split; [split; [intros (s' & E & _); discriminate E | congruence]|].
    split; [reflexivity | constructor].
Qed.

(** A read of X15 with the URL object of a served resource: nothing is
    requested. *)
Example resource_read_any_url :
  sent (snd (handle_read_resource (constant_upstream (JObj [])) 0 (fun _ => EmptyString)
               (fun _ => EmptyString) (AnyUrl "fda://recalls/recent") fresh))
  = [].
Proof. reflexivity. Qed.

(** ** The catalogues and the handlers agree *)

Lemma lookup_app (k : string) (a b : dict) :
  Py.lookup k (List.app a b)
  = match Py.lookup k a with
    | Some v => Some v
    | None => Py.lookup k b
    end.
Proof.
  induction a as [|[k' v] a IH]; [reflexivity|].
  cbn [List.app Py.lookup]. now destruct (String.eqb k k').
Qed.

Lemma get_or_app_other (k : string) (a : dict) (entry : json) (default : json) :
  String.eqb k "limit" = false ->
  Py.get_or (List.app a [("limit", entry)]) k default = Py.get_or a k default.
Proof.
  intros Hk. unfold Py.get_or. rewrite lookup_app. cbn [Py.lookup]. rewrite Hk.
  now destruct (Py.lookup k a).
Qed.

Lemma get_or_app_limit (a : dict) (entry default : json) :
  Py.lookup "limit" a = None ->
  Py.get_or (List.app a [("limit", entry)]) "limit" default = entry.
Proof.
  intros H. unfold Py.get_or. rewrite lookup_app, H. reflexivity.
Qed.

(** X16.  For every tool of the catalogue, the default its input schema
    declares for [limit] is the one its handler takes: a call without
    [limit] does what the same call with [limit] set to the schema's
    default does, request, result and log alike. *)
Theorem schema_default_limit_is_taken :
  forall upstream py_repr (t : Tool.t) default arguments w,
    In t (tools handle_list_tools) ->
    schema_default "limit" (Tool.inputSchema t) = Some default ->
    Py.lookup "limit" arguments = None ->
    handle_call_tool upstream py_repr (Tool.name t) arguments w
    = handle_call_tool upstream py_repr (Tool.name t)
        (List.app arguments [("limit", default)]) w.
Proof.
  intros upstream py_repr t default arguments w Ht Hdefault Habsent.
  assert (Hsub : Py.subscript (List.app arguments [("limit", default)]) "drug_name"
                 = Py.subscript arguments "drug_name").
  { unfold Py.subscript. rewrite lookup_app. cbn [Py.lookup String.eqb Ascii.eqb Bool.eqb].
    now destruct (Py.lookup "drug_name" arguments). }
  simpl in Ht. destruct Ht as [<-|[<-|[<-|[]]]];
    cbn in Hdefault; injection Hdefault as <-;
    unfold handle_call_tool; cbn [Tool.name String.eqb Ascii.eqb Bool.eqb];
    unfold _search_drug_events, search_drug_events_result, search_drug_events_params,
      _get_drug_label_info, get_drug_label_info_result, get_drug_label_info_params,
      _search_drug_recalls, search_drug_recalls_result, search_drug_recalls_params;
    rewrite Hsub, ?(get_or_app_limit arguments _ _ Habsent),
      ?get_or_app_other by reflexivity;
    unfold Py.get_or; rewrite Habsent; reflexivity.
Qed.

Lemma schema_default_limit_is_taken_witness :
  let data := JObj [("results", JArr [JObj []; JObj []; JObj []; JObj []; JObj []; JObj []])] in
  handle_call_tool (constant_upstream data) no_repr "get_drug_label_info"
    [("drug_name", JStr "aspirin")] fresh
  = handle_call_tool (constant_upstream data) no_repr "get_drug_label_info"
      [("drug_name", JStr "aspirin"); ("limit", JNum 5)] fresh.
Proof.
  intros data.
  exact (schema_default_limit_is_taken (constant_upstream data) no_repr
           (nth 1 (tools handle_list_tools) (Tool.Build_t EmptyString EmptyString JNull))
           (JNum 5) [("drug_name", JStr "aspirin")] fresh
           (or_intror (or_introl eq_refl)) eq_refl eq_refl).
Defined.

(** X17.  For every prompt of the catalogue: when an argument it marks as
    required is missing, getting the prompt returns the error prompt whose
    message names the missing argument; when every required argument is
    given as a string, it returns the prompt of its generator and writes
    nothing to the log. *)
Theorem prompt_required_arguments :
  forall py_repr (p : Prompt.t) arguments w,
    In p (prompts handle_list_prompts) ->
    (forall key,
       In key (prompt_required p) ->
       Py.lookup key arguments = None ->
       handle_get_prompt py_repr (Prompt.name p) arguments w
       = (ok {| description := "Error getting prompt";
                messages := [user_message ("Error: '" ++ key ++ "'")] |},
          {| sent := sent w;
             logged := List.app (logged w)
                         [(ERROR, "Error getting prompt " ++ Prompt.name p
                                  ++ ": '" ++ key ++ "'")] |}))
    /\ ((forall key, In key (prompt_required p) ->
           exists s, Py.lookup key arguments = Some (JStr s)) ->
        exists result,
          handle_get_prompt py_repr (Prompt.name p) arguments w = (ok result, w)
          /\ description result <> "Error getting prompt"
          /\ List.length (messages result) = 1%nat).
Proof.
  intros py_repr p arguments w Hp. simpl in Hp.
  destruct Hp as [<-|[<-|[]]]; cbn [Prompt.name prompt_required Prompt.arguments
    filter PromptArgument.required map PromptArgument.name]; split.
  - intros key [<-|[]] Habsent.
    unfold handle_get_prompt, try_except, lift.
    cbn [String.eqb Ascii.eqb Bool.eqb].
    unfold _get_safety_analysis_prompt, Py.subscript. rewrite Habsent. reflexivity.
  - intros Hall. destruct (Hall "drug_name" (or_introl eq_refl)) as [s Hs].
    unfold handle_get_prompt, try_except, lift.
    cbn [String.eqb Ascii.eqb Bool.eqb].
    unfold _get_safety_analysis_prompt, Py.subscript. rewrite Hs. cbn [res_bind ok].
    eexists. split; [reflexivity|]. split; [discriminate | reflexivity].
  - intros key [<-|[]] Habsent.
    unfold handle_get_prompt, try_except, lift.
    cbn [String.eqb Ascii.eqb Bool.eqb].
    unfold _get_drug_comparison_prompt, Py.subscript. rewrite Habsent. reflexivity.
  - intros Hall. destruct (Hall "drug_list" (or_introl eq_refl)) as [s Hs].
    unfold handle_get_prompt, try_except, lift.
    cbn [String.eqb Ascii.eqb Bool.eqb].
    unfold _get_drug_comparison_prompt, Py.subscript. rewrite Hs.
    cbn [res_bind ok comparison_drugs str_method].
    eexists. split; [reflexivity|]. split; [discriminate | reflexivity].
Qed.

Lemma prompt_required_arguments_witness :
  handle_get_prompt no_repr "analyze_drug_safety" [("focus_area", JStr "recalls")] fresh
  = (ok {| description := "Error getting prompt";
           messages := [user_message "Error: 'drug_name'"] |},
     {| sent := [];
        logged := [(ERROR, "Error getting prompt analyze_drug_safety: 'drug_name'")] |})
  /\ exists result,
       handle_get_prompt no_repr "drug_comparison"
         [("drug_list", JStr "aspirin,ibuprofen")] fresh
       = (ok result, fresh)
       /\ description result <> "Error getting prompt"
       /\ List.length (messages result) = 1%nat.
Proof.
  split.
  - exact (proj1 (prompt_required_arguments no_repr
                    (nth 0 (prompts handle_list_prompts)
                       (Prompt.Build_t EmptyString EmptyString []))
                    [("focus_area", JStr "recalls")] fresh (or_introl eq_refl))
             "drug_name" (or_introl eq_refl) eq_refl).
  - apply (proj2 (prompt_required_arguments no_repr
                    (nth 1 (prompts handle_list_prompts)
                       (Prompt.Build_t EmptyString EmptyString []))
                    [("drug_list", JStr "aspirin,ibuprofen")] fresh
                    (or_intror (or_introl eq_refl)))).
    intros key [<-|[]]. now exists "aspirin,ibuprofen".
Defined.
